(** * Pricing and conversion calculator of the cannabis-inventory examples

    Shallow embedding of the two agent tools that carry the arithmetic of
    the repository:

    - [Inventory.execute], the [weight_conversion] tool of
      [examples/cannabis-inventory/inventory-analysis.ts];
    - [Pricing.execute], the [bulk_pricing_calculator] tool of the pricing
      optimisation script.

    A JavaScript [number] is an IEEE 754 binary64 value.  It is modelled by
    Rocq's primitive [float], which is the same format with the same
    round-to-nearest-even operations, so [*], [/], [-] and the comparisons
    below are the operations the scripts execute.  [Math.floor], [%],
    [toFixed] and the number-to-string conversion of template literals are
    defined from their ECMAScript descriptions on the exact value
    [m * 2^e] of a finite number. *)

From Stdlib Require Import ZArith QArith Qabs Qpower Floats Bool List Lia Lqa Ascii String DecimalString.
Import ListNotations.

Set Warnings "-inexact-float".

(** ** JavaScript numbers *)

Module JS.

Local Open Scope Z_scope.

Definition number := float.

(** The outcome of calling a tool's [execute]: it returns a value or throws. *)
Inductive error := InvalidInput | InvalidUnit | InvalidQuantity.

Inductive outcome (A : Type) :=
| Returns (a : A)
| Throws (e : error).
Arguments Returns {A} a.
Arguments Throws {A} e.

(** [x >= y] and [x > y]: false as soon as an operand is NaN. *)
Definition ge (x y : number) : bool := PrimFloat.leb y x.
Definition gt (x y : number) : bool := PrimFloat.ltb y x.

(** *** Exact integers as numbers *)

(** The canonical binary64 representation of a positive integer below
    [2^53]: the mantissa is shifted up to 53 bits. *)
Definition SFofpos (s : bool) (p : positive) : spec_float :=
  let '(m, e) := shl_align p 0 (fexp prec emax (Zpos (digits2_pos p))) in
  S754_finite s m e.

Definition SFofZ (n : Z) : spec_float :=
  match n with
  | Z0 => S754_zero false
  | Zpos p => SFofpos false p
  | Zneg p => SFofpos true p
  end.

(** *** Math.floor *)

(** [Math.floor x]: NaN, the infinities and the zeros are returned as they
    are, and so is a finite number with a non-negative exponent (an
    integer); otherwise the greatest integer below [m * 2^e], which is
    [+0] for [0 < x < 1]. *)
Definition SFfloor (x : spec_float) : spec_float :=
  match x with
  | S754_finite s m e =>
      if (0 <=? e)%Z then x
      else SFofZ (Z.div (if s then Zneg m else Zpos m) (2 ^ (- e)))
  | _ => x
  end.

Definition Math_floor (x : number) : number := SF2Prim (SFfloor (Prim2SF x)).

(** *** The remainder operator [%] *)

(** [n % d] (Number::remainder): NaN when an operand is NaN, [n] is
    infinite or [d] is a zero; [n] when [d] is infinite or [n] is a zero;
    otherwise [n - d * q] with [q] the quotient truncated towards zero,
    computed exactly, with the sign of [n] (also on a zero result). *)
Definition SFrem (n d : spec_float) : spec_float :=
  match n, d with
  | S754_nan, _ | _, S754_nan => S754_nan
  | S754_infinity _, _ => S754_nan
  | _, S754_zero _ => S754_nan
  | _, S754_infinity _ => n
  | S754_zero _, _ => n
  | S754_finite sn mn en, S754_finite _ md ed =>
      let e := Z.min en ed in
      let r := Z.modulo (Zpos mn * 2 ^ (en - e)) (Zpos md * 2 ^ (ed - e)) in
      match r with
      | Zpos p =>
          let '(m', e') := shl_align p e (fexp prec emax (Zpos (digits2_pos p) + e)) in
          S754_finite sn m' e'
      | _ => S754_zero sn
      end
  end.

Definition rem (n d : number) : number := SF2Prim (SFrem (Prim2SF n) (Prim2SF d)).

(** *** Decimal digits *)

Definition digits_of (n : Z) : string :=
  NilZero.string_of_uint (N.to_uint (Z.to_N n)).

Fixpoint zeros (k : nat) : string :=
  match k with
  | O => EmptyString
  | S k' => String "0" (zeros k')
  end.

(** *** Number::toString, radix 10 *)

(** The Number value of the rational [a / b]: the quotient rounded to
    nearest, ties to even. *)
Definition SFofratio (a b : positive) : spec_float :=
  SF64div (S754_finite false a 0) (S754_finite false b 0).

Definition SFeq_dec_bool (x y : spec_float) : bool :=
  match x, y with
  | S754_finite s1 m1 e1, S754_finite s2 m2 e2 =>
      Bool.eqb s1 s2 && Pos.eqb m1 m2 && Z.eqb e1 e2
  | _, _ => false
  end.

Section ToString.
(** The positive finite number [P / Q] (with [Q] a power of two) whose
    digits are wanted, as the number [x]. *)
Variables (x : spec_float) (P Q : Z).

(** The decimal exponent [n0] with [10^(n0-1) <= P/Q < 10^n0]. *)
Fixpoint exp10_up (fuel : nat) (n : Z) : Z :=
  match fuel with
  | O => n
  | S fuel' => if (P <? Q * 10 ^ n)%Z then n else exp10_up fuel' (n + 1)
  end.

Fixpoint exp10_down (fuel : nat) (j : Z) : Z :=
  match fuel with
  | O => - j
  | S fuel' => if (Q <=? P * 10 ^ (j + 1))%Z then - j else exp10_down fuel' (j + 1)
  end.

Definition exp10 : Z :=
  if (Q <=? P)%Z then exp10_up 400 1 else exp10_down 400 0.

(** [s * 10^(n - k)] as a Number. *)
Definition SFofdecimal (s n k : Z) : spec_float :=
  if (k <=? n)%Z then SFofratio (Z.to_pos (s * 10 ^ (n - k))) 1
  else SFofratio (Z.to_pos s) (Z.to_pos (10 ^ (k - n))).

Definition rounds_to_x (s n k : Z) : bool :=
  (0 <? s)%Z && SFeq_dec_bool (SFofdecimal s n k) x.

(** The digits [s] of length [k] for the exponent [n], if some [s] of
    that length denotes [x]: the floor or the ceiling of
    [P/Q * 10^(k-n)], the closer one to [x] when both do. *)
Definition candidate (n k : Z) : option Z :=
  let num := if (n <=? k)%Z then P * 10 ^ (k - n) else P in
  let den := if (n <=? k)%Z then Q else Q * 10 ^ (n - k) in
  let lo := (num / den)%Z in
  let hi := (lo + 1)%Z in
  let twice := (2 * (num - lo * den))%Z in
  match rounds_to_x lo n k, rounds_to_x hi n k with
  | true, true =>
      if (twice <? den)%Z then Some lo
      else if (den <? twice)%Z then Some hi
      else Some (if Z.even lo then lo else hi)
  | true, false => Some lo
  | false, true => Some hi
  | false, false => None
  end.

(** The least [k] with a candidate, and the candidate. *)
Fixpoint shortest (fuel : nat) (n k : Z) : Z * Z :=
  match fuel with
  | O => (k, (P * 10 ^ (k - n) / Q)%Z)
  | S fuel' =>
      match candidate n k with
      | Some s => (k, s)
      | None => shortest fuel' n (k + 1)
      end
  end.
End ToString.

(** Steps 6 to 10 of Number::toString for the digits [s] (of length [k])
    and the exponent [n]. *)
Definition format_digits (s k n : Z) : string :=
  let d := digits_of s in
  if (k <=? n) && (n <=? 21) then (d ++ zeros (Z.to_nat (n - k)))%string
  else if (0 <? n) && (n <=? 21) then
    (substring 0 (Z.to_nat n) d ++ "." ++
     substring (Z.to_nat n) (Z.to_nat (k - n)) d)%string
  else if (-6 <? n) && (n <=? 0) then
    ("0." ++ zeros (Z.to_nat (- n)) ++ d)%string
  else
    let e := n - 1 in
    let sign := if e <? 0 then "-"%string else "+"%string in
    let es := (sign ++ digits_of (Z.abs e))%string in
    if k =? 1 then (d ++ "e" ++ es)%string
    else (substring 0 1 d ++ "." ++ substring 1 (Z.to_nat (k - 1)) d ++ "e" ++ es)%string.

Definition SFtoString (x : spec_float) : string :=
  match x with
  | S754_nan => "NaN"%string
  | S754_zero _ => "0"%string
  | S754_infinity s => if s then "-Infinity"%string else "Infinity"%string
  | S754_finite s m e =>
      let ax := S754_finite false m e in
      let P := (Zpos m * 2 ^ Z.max e 0)%Z in
      let Q := (2 ^ Z.max (- e) 0)%Z in
      let n0 := exp10 P Q in
      let '(k, s0) := shortest ax P Q 17 n0 1 in
      (* the ceiling may reach [10^k]: the digit 1 of the next decade *)
      let '(s1, n) := if (s0 =? 10 ^ k)%Z then (10 ^ (k - 1), n0 + 1)%Z else (s0, n0) in
      let sign := if s then "-"%string else ""%string in
      (sign ++ format_digits s1 k n)%string
  end.

(** [`${x}`]: the string of a number in a template literal. *)
Definition toString (x : number) : string := SFtoString (Prim2SF x).

(** *** Number.prototype.toFixed *)

(** The integer [n] for which [n / 10^f - m * 2^e] is closest to zero, the
    larger one of two. *)
Definition fixed_int (f : nat) (m : positive) (e : Z) : Z :=
  let num := (Zpos m * 10 ^ Z.of_nat f)%Z in
  if (0 <=? e)%Z then (num * 2 ^ e)%Z
  else ((2 * num + 2 ^ (- e)) / 2 ^ (1 - e))%Z.

(** The digits of [n] with a point before the last [f] of them, padded
    with zeros on the left up to [f + 1] digits. *)
Definition fixed_digits (f : nat) (n : Z) : string :=
  let m := digits_of n in
  match f with
  | O => m
  | _ =>
      let m := (zeros (S f - String.length m)%nat ++ m)%string in
      let k := String.length m in
      (substring 0 (k - f)%nat m ++ "." ++ substring (k - f)%nat f m)%string
  end.

Definition SFtoFixed (f : nat) (x : spec_float) : string :=
  match x with
  | S754_finite s m e =>
      let sign := if s then "-"%string else ""%string in
      if 10 ^ 21 * 2 ^ Z.max (- e) 0 <=? Zpos m * 2 ^ Z.max e 0
      then (sign ++ SFtoString (S754_finite false m e))%string
      else (sign ++ fixed_digits f (fixed_int f m e))%string
  | S754_zero _ => fixed_digits f 0
  | _ => SFtoString x
  end.

Definition toFixed (x : number) (f : nat) : string := SFtoFixed f (Prim2SF x).

End JS.

Import JS.
Open Scope float_scope.
Open Scope string_scope.

(** ** The weight-conversion tool (inventory-analysis.ts) *)

Module Inventory.

(** [z.enum(['g', 'oz', 'lb', 'kg'])] *)
Inductive unit := g | oz | lb | kg.

Definition unit_name (u : unit) : string :=
  match u with g => "g" | oz => "oz" | lb => "lb" | kg => "kg" end.

Definition unit_eqb (u v : unit) : bool :=
  match u, v with
  | g, g | oz, oz | lb, lb | kg, kg => true
  | _, _ => false
  end.

(** The tool's parameters. *)
Record input := {
  fromWeight : number;
  fromUnit : unit;
  toUnit : unit;
  bulkPricing : bool
}.

(** Conversion factors to grams. *)
Definition toGrams (u : unit) : number :=
  match u with
  | g => 1
  | oz => 28.3495
  | lb => 453.592
  | kg => 1000
  end.

(** [grams = fromWeight * toGrams[fromUnit]; result = grams / toGrams[toUnit]] *)
Definition convert (q : number) (from to : unit) : number :=
  let grams := q * toGrams from in
  grams / toGrams to.

(** The bulk pricing tiers of the tool: [bulkDiscount] stays 0 unless the
    flag is set and the target unit is the pound. *)
Definition bulkDiscount (flag : bool) (to : unit) (result : number) : number :=
  if flag && unit_eqb to lb then
    if ge result 100 then 15
    else if ge result 50 then 10
    else if ge result 25 then 5
    else 0
  else 0.

Record breakdown_t := {
  eighths : number;
  quarters : number;
  halfOunces : number;
  ounces : number;
  remaining : string
}.

(** The [breakdown] object, computed on [result]. *)
Definition breakdown (result : number) : breakdown_t :=
  {| eighths := Math_floor (result / 3.5);
     quarters := Math_floor (result / 7);
     halfOunces := Math_floor (result / 14);
     ounces := Math_floor (result / 28);
     remaining := toFixed (rem result 28) 2 |}.

Record output := {
  original : string;
  converted : string;
  bulkDiscount_text : string;
  breakdown_of : breakdown_t
}.

Definition execute (i : input) : outcome output :=
  let result := convert (fromWeight i) (fromUnit i) (toUnit i) in
  let bulkDiscount := bulkDiscount (bulkPricing i) (toUnit i) result in
  Returns
    {| original := toString (fromWeight i) ++ " " ++ unit_name (fromUnit i);
       converted := toFixed result 2 ++ " " ++ unit_name (toUnit i);
       bulkDiscount_text :=
         if gt bulkDiscount 0 then toString bulkDiscount ++ "%" else "None";
       breakdown_of := breakdown result |}.

End Inventory.

(** ** The bulk pricing calculator (pricing optimisation script) *)

Module Pricing.

(** [z.enum(['g', 'oz', 'lb'])] *)
Inductive unit := g | oz | lb.

Record input := {
  basePrice : number;
  quantity : number;
  unit_of : unit;
  tier_of : option string
}.

(** Conversion factors to pounds. *)
Definition conversionFactors (u : unit) : number :=
  match u with
  | g => 1 / 453.592
  | oz => 1 / 16
  | lb => 1
  end.

Definition pounds (q : number) (u : unit) : number := q * conversionFactors u.

(** The bulk discount tiers: the pair [(discountRate, tier)] the
    [if]/[else if] chain leaves in the two variables. *)
Definition resolveTier (pounds : number) : number * string :=
  if ge pounds 100 then (15, "Master 2 (100lbs+)")
  else if ge pounds 50 then (10, "Master (50lbs+)")
  else if ge pounds 25 then (5, "Distro (25lbs+)")
  else (0, "Standard Pricing").

Record breakdown_t := {
  pounds_text : string;
  unitPrice : string;
  totalPrice : string
}.

Record output := {
  originalPrice : number;
  discountedPrice : string;
  discountRate : string;
  tier : string;
  totalSavings : string;
  breakdown : breakdown_t
}.

Definition execute (i : input) : outcome output :=
  let pounds := pounds (quantity i) (unit_of i) in
  let '(discountRate, tier) := resolveTier pounds in
  let discountedPrice := basePrice i * (1 - discountRate / 100) in
  let totalSavings := (basePrice i - discountedPrice) * quantity i in
  Returns
    {| originalPrice := basePrice i;
       discountedPrice := toFixed discountedPrice 2;
       discountRate := toString discountRate ++ "%";
       tier := tier;
       totalSavings := toFixed totalSavings 2;
       breakdown :=
         {| pounds_text := toFixed pounds 2;
            unitPrice := toFixed discountedPrice 2;
            totalPrice := toFixed (discountedPrice * quantity i) 2 |} |}.

End Pricing.

(** ** The specification's tier table and the inputs of its scenarios *)

Module Spec.

(** Section 4.3 of the specification: the fixed thresholds, in descending
    order, each with its discount and label. *)
Definition tiers : list (number * (number * string)) :=
  [ (100, (15, "Master 2 (100lbs+)"));
    (50, (10, "Master (50lbs+)"));
    (25, (5, "Distro (25lbs+)"));
    (0, (0, "Standard Pricing")) ].

(** First match wins. *)
Definition first_match (pounds : number) : option (number * string) :=
  option_map snd (find (fun t => ge pounds (fst t)) tiers).

(** The band of a tier: from its threshold up to the threshold of the
    tier before it, excluded. *)
Fixpoint bands (upper : option number) (ts : list (number * (number * string)))
  : list (number * option number * (number * string)) :=
  match ts with
  | [] => []
  | (lo, r) :: ts' => (lo, upper, r) :: bands (Some lo) ts'
  end.

Definition in_band (p : number) (b : number * option number * (number * string)) : bool :=
  let '(lo, hi, _) := b in
  ge p lo && match hi with Some h => PrimFloat.ltb p h | None => true end.

End Spec.

Module Examples.

Definition scenario : Pricing.input :=
  {| Pricing.basePrice := 45; Pricing.quantity := 50;
     Pricing.unit_of := Pricing.lb; Pricing.tier_of := None |}.

Definition scenario_in_ounces : Pricing.input :=
  {| Pricing.basePrice := 45; Pricing.quantity := 800;
     Pricing.unit_of := Pricing.oz; Pricing.tier_of := None |}.

Definition negative_price : Pricing.input :=
  {| Pricing.basePrice := -5; Pricing.quantity := 10;
     Pricing.unit_of := Pricing.lb; Pricing.tier_of := None |}.

Definition negative_quantity : Pricing.input :=
  {| Pricing.basePrice := 45; Pricing.quantity := -1;
     Pricing.unit_of := Pricing.oz; Pricing.tier_of := None |}.

Definition pounds_to (u : Inventory.unit) : Inventory.input :=
  {| Inventory.fromWeight := 25; Inventory.fromUnit := Inventory.lb;
     Inventory.toUnit := u; Inventory.bulkPricing := true |}.

(** The units of the pricing tool among those of the converter. *)
Definition unit_of_pricing (u : Pricing.unit) : Inventory.unit :=
  match u with
  | Pricing.g => Inventory.g
  | Pricing.oz => Inventory.oz
  | Pricing.lb => Inventory.lb
  end.

End Examples.

(** ** The competitive analysis tool (pricing optimisation script) *)

Module Competitive.

Record input := {
  productName : string;
  currentPrice : number;
  tier : string;
  region : string
}.

Record competitor := {
  name : string;
  price : number;
  position : string
}.

(** [array.length], as a number. *)
Definition Array_length {A : Type} (l : list A) : number :=
  of_uint63 (Uint63.of_Z (Z.of_nat (List.length l))).

(** Mock competitive analysis. *)
Definition competitors (i : input) : list competitor :=
  [ {| name := "Competitor A"; price := currentPrice i * 0.95; position := "Lower price" |};
    {| name := "Competitor B"; price := currentPrice i * 1.05; position := "Higher price" |};
    {| name := "Competitor C"; price := currentPrice i * 1.1; position := "Premium pricing" |} ].

Definition marketAverage (i : input) : number :=
  fold_left (fun sum comp => sum + price comp) (competitors i) 0
  / Array_length (competitors i).

Definition position_of (i : input) : string :=
  if gt (currentPrice i) (marketAverage i) then "Premium"
  else if PrimFloat.ltb (currentPrice i) (marketAverage i) then "Value"
  else "Market average".

Record output := {
  product : string;
  currentPrice_out : number;
  marketAverage_text : string;
  position_out : string;
  competitors_out : list competitor;
  recommendations : list string
}.

Definition execute (i : input) : outcome output :=
  let competitors := competitors i in
  let marketAverage := marketAverage i in
  let position := position_of i in
  Returns
    {| product := productName i;
       currentPrice_out := currentPrice i;
       marketAverage_text := toFixed marketAverage 2;
       position_out := position;
       competitors_out := competitors;
       recommendations :=
         [ if String.eqb position "Premium"
           then "Maintain premium positioning with quality focus"
           else "Consider price optimization";
           "Monitor competitor pricing weekly";
           "Focus on unique value propositions" ] |}.

End Competitive.

(** ** The comprehensive pricing analysis tool (pricing optimisation script) *)

Module Analysis.

(** [tier] is optional; the two flags default to [true]. *)
Record input := {
  tier : option string;
  includeMarketComparison : bool;
  includeRecommendations : bool
}.

Record tier_entry := {
  averagePrice : number;
  productCount : number;
  priceRange : string;
  marketPosition : string;
  recommendedAdjustment : string
}.

(** Mock comprehensive pricing analysis: the own properties of the object
    literal, in insertion order. *)
Definition tierAnalysis : list (string * tier_entry) :=
  [ ("TOP SHELF",
     {| averagePrice := 42.33; productCount := 3; priceRange := "$40-45";
        marketPosition := "Premium"; recommendedAdjustment := "+5%" |});
    ("AA INDOOR",
     {| averagePrice := 33.5; productCount := 2; priceRange := "$32-35";
        marketPosition := "Competitive"; recommendedAdjustment := "+3%" |});
    ("CLASSIC RESERVE",
     {| averagePrice := 28.0; productCount := 1; priceRange := "$28";
        marketPosition := "Value"; recommendedAdjustment := "No change" |}) ].

(** The property names an object literal inherits from [Object.prototype]. *)
Definition Object_prototype : list string :=
  [ "constructor"; "__defineGetter__"; "__defineSetter__"; "hasOwnProperty";
    "__lookupGetter__"; "__lookupSetter__"; "isPrototypeOf"; "propertyIsEnumerable";
    "toString"; "valueOf"; "__proto__"; "toLocaleString" ].

(** What a property of the analysis object holds: a tier's entry, or a
    member of [Object.prototype] (a function, or the prototype itself for
    ["__proto__"]), which is truthy. *)
Inductive value :=
| Entry (e : tier_entry)
| Inherited (name : string).

Fixpoint own (o : list (string * tier_entry)) (k : string) : option tier_entry :=
  match o with
  | [] => None
  | (k', e) :: o' => if String.eqb k' k then Some e else own o' k
  end.

(** [o[k]]: the own property, else the inherited one, else [undefined]. *)
Definition get (o : list (string * tier_entry)) (k : string) : option value :=
  match own o k with
  | Some e => Some (Entry e)
  | None =>
      if existsb (String.eqb k) Object_prototype then Some (Inherited k) else None
  end.

(** A string is truthy when it is not empty. *)
Definition truthy (s : string) : bool := negb (String.eqb s "").

Record output := {
  analysis : list (string * value);
  opportunities : list string;
  marketInsights : list string;
  recommendations : list string
}.

Definition execute (i : input) : outcome output :=
  let filteredAnalysis :=
    match tier i with
    | Some t =>
        if truthy t then
          match get tierAnalysis t with
          | Some v => [(t, v)]
          | None => map (fun kv => (fst kv, Entry (snd kv))) tierAnalysis
          end
        else map (fun kv => (fst kv, Entry (snd kv))) tierAnalysis
    | None => map (fun kv => (fst kv, Entry (snd kv))) tierAnalysis
    end in
  let opportunities :=
    [ "Top Shelf products can support 5% price increase";
      "Consider volume discounts for bulk orders over 25lbs";
      "AA Indoor tier has room for optimization" ] in
  Returns
    {| analysis := filteredAnalysis;
       opportunities := opportunities;
       marketInsights :=
         [ "THCA content above 25% commands premium pricing";
           "Hybrid strains have 10% higher demand";
           "Peak season pricing can increase by 15%" ];
       recommendations :=
         [ "Implement tier-based pricing strategy";
           "Consider bundling lower-tier products";
           "Monitor competitor pricing weekly" ] |}.

End Analysis.

(** ** The steps of the bulk pricing calculator *)

Module PricingSteps.

(** [discountedPrice] and [totalSavings] of the bulk pricing calculator, as
    functions of the base price, the quantity and the pounds. *)
Definition discountedPrice (basePrice pounds : number) : number :=
  basePrice * (1 - fst (Pricing.resolveTier pounds) / 100).

Definition totalSavings (basePrice quantity pounds : number) : number :=
  (basePrice - discountedPrice basePrice pounds) * quantity.

End PricingSteps.

(** ** Definitions used by the proofs *)

Module Rounding.

Local Open Scope Z_scope.

(** The record [(m, r, s)] locates the rational [N / D]: [m] is its
    floor, [r] tells whether the fractional part reaches one half, and
    [s] whether it is neither zero nor one half. *)
Definition locates (N D : Z) (mrs : shr_record) : Prop :=
  shr_m mrs = N / D /\
  shr_r mrs = (D <=? 2 * (N mod D)) /\
  shr_s mrs = negb (N mod D =? 0) && negb (2 * (N mod D) =? D).

(** The number 1. *)
Definition SFone : spec_float := S754_finite false 4503599627370496 (-52).

(** The value [m * 2^e] of a positive finite number. *)
Definition Qval (m : positive) (e : Z) : Q := (inject_Z (Zpos m) * 2 ^ e)%Q.

(** The unit roundoff of binary64. *)
Definition u64 : Q := (1 # 9007199254740992)%Q.

(** A positive normal number: canonical, with a mantissa of 53 bits. *)
Definition normal (m : positive) (e : Z) : Prop :=
  bounded prec emax m e = true /\ Zpos (digits2_pos m) = 53.

End Rounding.


(** ** Relative tolerance, in exact arithmetic *)

Module Tolerance.

Import Rounding.

(** The exact value of a finite number. *)
Definition exact_value (x : number) : option Q :=
  match Prim2SF x with
  | S754_zero _ => Some 0%Q
  | S754_finite s m e => Some ((if s then -1 else 1) * Qval m e)%Q
  | _ => None
  end.

(** [x] is within the relative tolerance [tol] of [q]: both are finite and
    [|x - q| <= tol * |q|], in exact arithmetic. *)
Definition within_rel (tol : Q) (x q : number) : bool :=
  match exact_value x, exact_value q with
  | Some vx, Some vq => Qle_bool (Qabs (vx - vq)) (tol * Qabs vq)%Q
  | _, _ => false
  end.

(** The quantities whose conversions stay clear of overflow and
    underflow: zero, or between 1e-300 and 1e300. *)
Definition in_range (q : number) : bool :=
  PrimFloat.eqb q 0 || (PrimFloat.leb 1e-300 q && PrimFloat.leb q 1e300).

End Tolerance.

(** ** The built-in operations on known values *)

Module Builtins.

Example toFixed_examples :
  toFixed 40.5 2 = "40.50" /\ toFixed 0.5 0 = "1" /\ toFixed 2.5 0 = "3" /\
  toFixed 1.005 2 = "1.00" /\ toFixed (-0.001) 2 = "-0.00" /\
  toFixed (-0) 2 = "0.00" /\ toFixed 1e21 2 = "1e+21" /\ toFixed nan 2 = "NaN".
Proof. repeat split; vm_compute; reflexivity. Qed.

Example toString_examples :
  toString 15 = "15" /\ toString 0.1 = "0.1" /\
  toString (0.1 + 0.2) = "0.30000000000000004" /\
  toString 1e21 = "1e+21" /\ toString 1e-7 = "1e-7" /\
  toString 123456789012345680000 = "123456789012345680000" /\
  toString 5e-324 = "5e-324" /\ toString (-1.5) = "-1.5" /\
  toString infinity = "Infinity".
Proof. repeat split; vm_compute; reflexivity. Qed.

Example Math_floor_examples :
  Math_floor 3.7 = 3 /\ Math_floor (-3.7) = -4 /\ Math_floor 0.5 = 0 /\
  Math_floor (-0.5) = -1 /\ Math_floor infinity = infinity /\
  Math_floor 1e300 = 1e300.
Proof. repeat split; vm_compute; reflexivity. Qed.

Example rem_examples :
  rem 5.5 2 = 1.5 /\ rem (-30) 28 = -2 /\ rem 0.3 0.1 = 0.09999999999999998 /\
  rem 5 infinity = 5 /\ rem 700 28 = 0 /\
  Prim2SF (rem infinity 5) = S754_nan /\ Prim2SF (rem 5 0) = S754_nan.
Proof. repeat split; vm_compute; reflexivity. Qed.

End Builtins.

(** ** Facts on binary64 comparisons *)

Module Order.

(** [SFcompare] is antisymmetric. *)
Lemma SFcompare_antisym (x y : spec_float) :
  SFcompare y x = option_map CompOpp (SFcompare x y).
Proof.
  destruct x as [sx|sx| |sx mx ex], y as [sy|sy| |sy my ey]; simpl;
    try destruct sx; try destruct sy; try reflexivity;
    change (PosDef.Pos.compare_cont Eq) with Pos.compare;
    rewrite (Z.compare_antisym ey ex), (Pos.compare_antisym my mx);
    destruct (ey ?= ex)%Z; simpl; try reflexivity;
    now rewrite ?CompOpp_involutive.
Qed.

(** On numbers that compare, [y <= x] fails exactly when [x < y]. *)
Lemma SFleb_false_ltb (x y : spec_float) :
  x <> S754_nan -> y <> S754_nan -> SFleb y x = false -> SFltb x y = true.
Proof.
  intros Hx Hy. unfold SFleb, SFltb. rewrite (SFcompare_antisym x y).
  destruct (SFcompare x y) as [[]|] eqn:E; simpl; try discriminate; try reflexivity.
  destruct x, y; try contradiction; simpl in E; discriminate.
Qed.

Lemma SFltb_leb_false (x y : spec_float) :
  SFltb x y = true -> SFleb y x = false.
Proof.
  unfold SFleb, SFltb. rewrite (SFcompare_antisym x y).
  destruct (SFcompare x y) as [[]|]; simpl; try discriminate; reflexivity.
Qed.

(** [c <= x] and [x < y] give [c <= y]: the comparison of two finite
    numbers of one sign is lexicographic on (exponent, mantissa). *)
Lemma SFleb_ltb_trans (c x y : spec_float) :
  SFleb c x = true -> SFltb x y = true -> SFleb c y = true.
Proof.
  unfold SFleb, SFltb.
  destruct c as [sc|sc| |sc mc ec], x as [sx|sx| |sx mx ex], y as [sy|sy| |sy my ey];
    simpl; try destruct sc; try destruct sx; try destruct sy;
    try discriminate; try reflexivity;
    change (PosDef.Pos.compare_cont Eq) with Pos.compare;
    repeat match goal with
      | |- context [(?a ?= ?b)%Z] => destruct (Z.compare_spec a b)
      | |- context [(?a ?= ?b)%positive] => destruct (Pos.compare_spec a b)
      end; simpl; try discriminate; try reflexivity; intros; lia.
Qed.

(** The same facts on numbers. *)
Lemma ge_false_lt (x c : number) :
  PrimFloat.leb x x = true -> PrimFloat.leb c c = true ->
  ge x c = false -> PrimFloat.ltb x c = true.
Proof.
  unfold ge. rewrite !leb_spec, ltb_spec. intros Hx Hc.
  apply SFleb_false_ltb; intro E; rewrite E in *; discriminate.
Qed.

Lemma lt_ge_false (x c : number) :
  PrimFloat.ltb x c = true -> ge x c = false.
Proof. unfold ge. rewrite leb_spec, ltb_spec. apply SFltb_leb_false. Qed.

Lemma ge_lt_trans (c x y : number) :
  ge x c = true -> PrimFloat.ltb x y = true -> ge y c = true.
Proof. unfold ge. rewrite !leb_spec, ltb_spec. apply SFleb_ltb_trans. Qed.

End Order.

(** ** Facts on binary64 rounding *)

Module Binary64.

Import Rounding.
Local Open Scope Z_scope.

Lemma digits2_size (p : positive) : digits2_pos p = Pos.size p.
Proof. induction p; simpl; congruence. Qed.

(** [2^(d-1) <= p < 2^d] for the number [d] of binary digits of [p]. *)
Lemma digits2_bounds (p : positive) :
  2 ^ (Zpos (digits2_pos p) - 1) <= Zpos p < 2 ^ Zpos (digits2_pos p).
Proof.
  rewrite digits2_size. split.
  - pose proof (Pos.size_le p) as H.
    assert (2 ^ Zpos (Pos.size p) <= 2 * Zpos p).
    { rewrite <- Pos2Z.inj_pow. change (2 * Zpos p) with (Zpos p~0). now apply Pos2Z.pos_le_pos. }
    replace (Zpos (Pos.size p)) with (Z.succ (Zpos (Pos.size p) - 1)) in H0 by lia.
    rewrite Z.pow_succ_r in H0 by lia. lia.
  - pose proof (Pos.size_gt p) as H. rewrite <- Pos2Z.inj_pow. now apply Pos2Z.pos_lt_pos.
Qed.

(** The number of digits is determined by such bounds. *)
Lemma digits2_unique (p : positive) (d : Z) :
  2 ^ (d - 1) <= Zpos p < 2 ^ d -> Zpos (digits2_pos p) = d.
Proof.
  intros [Hl Hu]. pose proof (digits2_bounds p) as [Hl' Hu'].
  assert (0 < d). { destruct (Z.ltb_spec 0 d); [lia|]. assert (2 ^ d <= 2 ^ 0) by (apply Z.pow_le_mono_r; lia). simpl in *; lia. }
  destruct (Z.lt_trichotomy (Zpos (digits2_pos p)) d) as [H1|[H1|H1]]; [|assumption|].
  - assert (2 ^ Zpos (digits2_pos p) <= 2 ^ (d - 1)) by (apply Z.pow_le_mono_r; lia). lia.
  - assert (2 ^ d <= 2 ^ (Zpos (digits2_pos p) - 1)) by (apply Z.pow_le_mono_r; lia). lia.
Qed.

Lemma digits2_shift (p : positive) (k : Z) :
  0 <= k -> Zdigits2 (Zpos p * 2 ^ k) = Zpos (digits2_pos p) + k.
Proof.
  intros Hk. pose proof (digits2_bounds p) as [Hl Hu].
  assert (0 < 2 ^ k) by (apply Z.pow_pos_nonneg; lia).
  destruct (Zpos p * 2 ^ k) as [|q|q] eqn:E; try lia.
  unfold Zdigits2. apply digits2_unique. rewrite <- E.
  replace (Zpos (digits2_pos p) + k - 1) with ((Zpos (digits2_pos p) - 1) + k) by lia.
  rewrite !Z.pow_add_r by lia. split; nia.
Qed.

(** [iter_pos] is iteration. *)
Lemma iter_pos_nat {A} (f : A -> A) (p : positive) (x : A) :
  iter_pos f p x = Nat.iter (Pos.to_nat p) f x.
Proof.
  revert x. induction p as [p IH|p IH|]; intros x; cbn [iter_pos].
  - rewrite !IH, Pos2Nat.inj_xI, <- Nat.iter_add, <- Nat.iter_succ_r.
    f_equal. lia.
  - rewrite !IH, Pos2Nat.inj_xO, <- Nat.iter_add. f_equal. lia.
  - reflexivity.
Qed.

(** *** Right shifts keep track of the discarded bits *)

Lemma shr_1_m (m : Z) (r s : bool) :
  0 <= m ->
  shr_1 (Build_shr_record m r s) = Build_shr_record (m / 2) (Z.odd m) (r || s).
Proof.
  intros Hm. destruct m as [|[p|p|]|p]; try lia; cbn [shr_1].
  - reflexivity.
  - f_equal. change (Zpos p~1) with (1 + 2 * Zpos p).
    rewrite Z.mul_comm, Z.div_add by lia. reflexivity.
  - f_equal. change (Zpos p~0) with (2 * Zpos p).
    rewrite Z.mul_comm, Z.div_mul by lia. reflexivity.
  - reflexivity.
Qed.

Lemma shr_1_locates (N D : Z) (mrs : shr_record) :
  0 <= N -> 0 < D -> locates N D mrs -> locates N (2 * D) (shr_1 mrs).
Proof.
  intros HN HD. destruct mrs as [m r s]. unfold locates. cbn [shr_m shr_r shr_s].
  intros (Hm & Hr & Hs).
  assert (0 <= m) by (subst m; apply Z.div_pos; lia).
  rewrite shr_1_m by assumption. cbn [shr_m shr_r shr_s].
  pose proof (Z.mod_pos_bound N D HD) as HR.
  assert (Hdiv : N / (2 * D) = m / 2).
  { subst m. rewrite (Z.mul_comm 2 D), Z.div_div by lia. reflexivity. }
  assert (Hmod : N mod (2 * D) = N mod D + D * (m mod 2)).
  { subst m. rewrite (Z.mul_comm 2 D). apply Z.rem_mul_r; lia. }
  rewrite Hdiv, Hmod. split; [reflexivity|].
  rewrite Zodd_mod. subst r s.
  pose proof (Z.mod_pos_bound m 2 ltac:(lia)) as Hm2.
  assert (m mod 2 = 0 \/ m mod 2 = 1) as [E|E] by lia; rewrite E;
    repeat match goal with
      | |- context [(?a <=? ?b)] => destruct (Z.leb_spec a b)
      | |- context [(?a =? ?b)] => destruct (Z.eqb_spec a b)
      end; simpl; try split; try reflexivity; try lia.
Qed.

Lemma iter_shr_1_locates (N D : Z) (mrs : shr_record) (n : nat) :
  0 <= N -> 0 < D -> locates N D mrs ->
  locates N (D * 2 ^ Z.of_nat n) (Nat.iter n shr_1 mrs).
Proof.
  intros HN HD H. induction n as [|n IH].
  - simpl. now rewrite Z.mul_1_r.
  - rewrite Nat2Z.inj_succ, Z.pow_succ_r by lia. cbn [Nat.iter].
    replace (D * (2 * 2 ^ Z.of_nat n)) with (2 * (D * 2 ^ Z.of_nat n)) by lia.
    apply shr_1_locates; try assumption.
    assert (0 < 2 ^ Z.of_nat n) by (apply Z.pow_pos_nonneg; lia). nia.
Qed.

(** [shr] by [n] positions. *)
Lemma shr_locates (N D : Z) (mrs : shr_record) (e n : Z) :
  0 <= N -> 0 < D -> locates N D mrs ->
  locates N (D * 2 ^ Z.max n 0) (fst (shr mrs e n)) /\
  snd (shr mrs e n) = e + Z.max n 0.
Proof.
  intros HN HD H. destruct n as [|p|p]; cbn [shr fst snd].
  - rewrite Z.mul_1_r. split; [assumption|]. lia.
  - rewrite iter_pos_nat. replace (Z.max (Zpos p) 0) with (Z.of_nat (Pos.to_nat p)) by lia.
    split; [now apply iter_shr_1_locates|]. lia.
  - replace (Z.max (Zneg p) 0) with 0 by lia. rewrite Z.mul_1_r. split; [assumption|]. lia.
Qed.

(** Rounding to nearest, ties to even, of a located rational. *)
Lemma round_nearest_even_locates (N D : Z) (mrs : shr_record) :
  0 <= N -> 0 < D -> locates N D mrs ->
  let m := round_nearest_even (shr_m mrs) (loc_of_shr_record mrs) in
  (m = N / D \/ m = N / D + 1) /\
  2 * Z.abs (m * D - N) <= D /\
  (N mod D = 0 -> m = N / D).
Proof.
  intros HN HD. destruct mrs as [m r s]. unfold locates. cbn [shr_m shr_r shr_s].
  intros (Hm & Hr & Hs).
  pose proof (Z.mod_pos_bound N D HD) as HR.
  pose proof (Z.div_mod N D ltac:(lia)) as HE.
  subst m. set (q := N / D) in *. set (R := N mod D) in *.
  revert Hr Hs.
  destruct (Z.leb_spec D (2 * R)), (Z.eqb_spec R 0), (Z.eqb_spec (2 * R) D);
    intros -> ->; cbn [loc_of_shr_record round_nearest_even negb andb];
    try destruct (Z.even q); repeat split; try lia; try nia.
Qed.

Lemma fexp_eq (k : Z) : fexp prec emax k = Z.max (k - 53) (-1074).
Proof. reflexivity. Qed.

Lemma bounded_spec (m : positive) (e : Z) :
  bounded prec emax m e = true <->
  Z.max (Zpos (digits2_pos m) + e - 53) (-1074) = e /\ e <= 971.
Proof.
  unfold bounded, canonical_mantissa. rewrite fexp_eq, andb_true_iff, Z.eqb_eq, Z.leb_le.
  reflexivity.
Qed.

Lemma locates_exact (m : Z) : forall D, 0 < D -> 0 <= m ->
  locates (m * D) D (Build_shr_record m false false).
Proof.
  intros D HD Hm. unfold locates. cbn [shr_m shr_r shr_s].
  rewrite Z.div_mul, Z.mod_mul by lia.
  repeat split. destruct (Z.leb_spec D (2 * 0)); [lia|reflexivity].
Qed.

Lemma locates_inv (N D : Z) (mrs : shr_record) :
  locates N D mrs -> N mod D = 0 -> 0 < D ->
  mrs = Build_shr_record (N / D) false false.
Proof.
  destruct mrs as [m r s]. unfold locates. cbn [shr_m shr_r shr_s].
  intros (-> & -> & ->) E HD. rewrite E. f_equal.
  destruct (Z.leb_spec D (2 * 0)); [lia|reflexivity].
Qed.

(** Rounding a number that is representable gives the number. *)
Lemma binary_round_aux_exact (s : bool) (m : positive) (e k : Z) :
  bounded prec emax m e = true -> 0 <= k ->
  binary_round_aux prec emax s (Zpos m * 2 ^ k) (e - k) loc_Exact = S754_finite s m e.
Proof.
  intros Hb Hk. apply bounded_spec in Hb. destruct Hb as [Hc He].
  assert (H2k : 0 < 2 ^ k) by (apply Z.pow_pos_nonneg; lia).
  unfold binary_round_aux, shr_fexp.
  rewrite digits2_shift, fexp_eq by assumption.
  replace (Zpos (digits2_pos m) + k + (e - k) - 53) with (Zpos (digits2_pos m) + e - 53) by lia.
  rewrite Hc. cbn [shr_record_of_loc].
  pose proof (shr_locates (Zpos m * 2 ^ k) 1 (Build_shr_record (Zpos m * 2 ^ k) false false)
                (e - k) (e - (e - k)) ltac:(lia) ltac:(lia)) as H.
  destruct (shr _ (e - k) (e - (e - k))) as [mrs' e'].
  cbn [fst snd] in H. destruct H as [Hl He'].
  { replace (Zpos m * 2 ^ k) with ((Zpos m * 2 ^ k) * 1) at 1 by lia.
    apply locates_exact; lia. }
  replace (Z.max (e - (e - k)) 0) with k in * by lia.
  rewrite Z.mul_1_l in Hl.
  apply locates_inv in Hl; [|apply Z.mod_mul; lia|assumption].
  rewrite Z.div_mul in Hl by lia. subst mrs' e'.
  cbn [shr_m loc_of_shr_record round_nearest_even].
  cbn [Zdigits2]. rewrite fexp_eq.
  replace (Zpos (digits2_pos m) + (e - k + k) - 53) with (Zpos (digits2_pos m) + e - 53) by lia.
  rewrite Hc. replace (e - (e - k + k)) with 0 by lia.
  cbn [shr shr_m].
  replace (e - k + k) with e by lia.
  destruct (Z.leb_spec e (emax - prec)) as [|H]; [reflexivity|].
  change (emax - prec) with 971 in H. lia.
Qed.

(** *** Division: the quotient and its location *)

Lemma new_location_locates (N D : Z) :
  0 <= N -> 0 < D ->
  locates N D (shr_record_of_loc (N / D) (new_location D (N mod D))).
Proof.
  intros HN HD. pose proof (Z.mod_pos_bound N D HD) as HR.
  set (R := N mod D) in *.
  unfold locates, new_location, new_location_even, new_location_odd.
  fold R.
  assert (HE : Z.even D = true -> D <> 2 * R + 1).
  { intros HE E. rewrite E, Z.add_comm, Z.even_add_mul_2 in HE. discriminate. }
  assert (HO : Z.even D = false -> D <> 2 * R).
  { intros HO E. rewrite E, Z.even_mul in HO. discriminate. }
  destruct (Z.even D); [clear HO; specialize (HE eq_refl)|clear HE; specialize (HO eq_refl)];
    destruct (Z.eqb_spec R 0) as [E0|E0];
    cbn [shr_record_of_loc shr_m shr_r shr_s negb andb];
    repeat match goal with
      | |- context [(?a ?= ?b)] => destruct (Z.compare_spec a b)
      end;
    cbn [shr_record_of_loc shr_m shr_r shr_s negb andb];
    repeat match goal with
      | |- context [(?a <=? ?b)] => destruct (Z.leb_spec a b)
      | |- context [(?a =? ?b)] => destruct (Z.eqb_spec a b)
      end; cbn [negb andb]; repeat split; try reflexivity; try lia.
Qed.

Lemma SFdiv_core_binary_spec (mx my : positive) (ex ey : Z) :
  let e' := Z.min (fexp prec emax (Zpos (digits2_pos mx) + ex - (Zpos (digits2_pos my) + ey))) (ex - ey) in
  let N := Zpos mx * 2 ^ (ex - ey - e') in
  exists l,
    SFdiv_core_binary prec emax (Zpos mx) ex (Zpos my) ey = (N / Zpos my, e', l) /\
    locates N (Zpos my) (shr_record_of_loc (N / Zpos my) l).
Proof.
  intros e' N. unfold SFdiv_core_binary. cbn [Zdigits2]. fold e'.
  assert (Hs : 0 <= ex - ey - e') by (unfold e'; lia).
  assert (Hm : match ex - ey - e' with
               | Zpos _ => Z.shiftl (Zpos mx) (ex - ey - e')
               | Z0 => Zpos mx
               | Zneg _ => Z0
               end = N).
  { unfold N. destruct (ex - ey - e') as [|p|p] eqn:E.
    - now rewrite Z.pow_0_r, Z.mul_1_r.
    - now rewrite Z.shiftl_mul_pow2 by lia.
    - lia. }
  rewrite Hm.
  assert (HN : 0 <= N).
  { unfold N. assert (0 < 2 ^ (ex - ey - e')) by (apply Z.pow_pos_nonneg; lia). nia. }
  pose proof (new_location_locates N (Zpos my) HN ltac:(lia)) as HL.
  unfold Z.div, Z.modulo in *. destruct (Z.div_eucl N (Zpos my)) as [q r].
  eexists. split; [reflexivity|exact HL].
Qed.

Lemma shr_record_of_loc_exact (m : Z) (l : location) :
  shr_record_of_loc m l = Build_shr_record m false false -> l = loc_Exact.
Proof. destruct l as [|[]]; cbn; intros H; try reflexivity; discriminate. Qed.

(** *** Multiplying and dividing by one *)

Lemma SFmul_one (x : spec_float) :
  valid_binary x = true -> SF64mul x SFone = x.
Proof.
  destruct x as [s|s| |s m e]; cbn [SF64mul SFmul SFone valid_binary];
    rewrite ?xorb_false_r; try reflexivity.
  intros Hb.
  replace (Zpos (m * 4503599627370496)) with (Zpos m * 2 ^ 52) by reflexivity.
  replace (e + -52) with (e - 52) by lia.
  apply binary_round_aux_exact; [assumption|lia].
Qed.

Lemma SFdiv_one (x : spec_float) :
  valid_binary x = true -> SF64div x SFone = x.
Proof.
  destruct x as [s|s| |s m e]; cbn [SF64div SFdiv SFone valid_binary];
    rewrite ?xorb_false_r; try reflexivity.
  intros Hb.
  destruct (SFdiv_core_binary_spec m 4503599627370496 e (-52)) as (l & E & HL).
  rewrite E. clear E.
  change (Zpos (digits2_pos 4503599627370496)) with 53 in *.
  pose proof Hb as Hb'. apply bounded_spec in Hb'. destruct Hb' as [Hc He].
  rewrite fexp_eq in *.
  set (e' := Z.min (Z.max (Zpos (digits2_pos m) + e - (53 + -52) - 53) (-1074)) (e - -52)) in *.
  assert (He' : e' <= e) by (unfold e'; lia).
  change (Zpos 4503599627370496) with (2 ^ 52) in *.
  replace (e - -52 - e') with ((e - e') + 52) in * by lia.
  rewrite Z.pow_add_r, Z.mul_assoc in * by lia.
  rewrite Z.div_mul in * by lia.
  apply locates_inv in HL; [|apply Z.mod_mul; lia|lia].
  rewrite Z.div_mul in HL by lia.
  apply shr_record_of_loc_exact in HL. subst l.
  replace e' with (e - (e - e')) at 2 by lia.
  apply binary_round_aux_exact; [assumption|lia].
Qed.

(** *** The sign of a rounded quotient *)

Lemma binary_round_aux_sign (s : bool) (N D mx ex : Z) (lx : location) :
  0 <= N -> 0 < D -> locates N D (shr_record_of_loc mx lx) ->
  binary_round_aux prec emax s mx ex lx = S754_zero s \/
  binary_round_aux prec emax s mx ex lx = S754_infinity s \/
  exists m e, binary_round_aux prec emax s mx ex lx = S754_finite s m e.
Proof.
  intros HN HD HL. unfold binary_round_aux, shr_fexp.
  pose proof (shr_locates N D _ ex (fexp prec emax (Zdigits2 mx + ex) - ex) HN HD HL) as [H1 _].
  destruct (shr (shr_record_of_loc mx lx) ex _) as [mrs1 e1]. cbn [fst] in H1.
  assert (HD1 : 0 < D * 2 ^ Z.max (fexp prec emax (Zdigits2 mx + ex) - ex) 0).
  { assert (0 < 2 ^ Z.max (fexp prec emax (Zdigits2 mx + ex) - ex) 0)
      by (apply Z.pow_pos_nonneg; lia). nia. }
  pose proof (round_nearest_even_locates N _ mrs1 HN HD1 H1) as (Hm2 & _).
  set (m2 := round_nearest_even (shr_m mrs1) (loc_of_shr_record mrs1)) in *.
  assert (Hm2' : 0 <= m2).
  { assert (0 <= N / (D * 2 ^ Z.max (fexp prec emax (Zdigits2 mx + ex) - ex) 0))
      by (apply Z.div_pos; lia). lia. }
  pose proof (shr_locates (m2 * 1) 1 (shr_record_of_loc m2 loc_Exact) e1
                (fexp prec emax (Zdigits2 m2 + e1) - e1) ltac:(lia) ltac:(lia)
                (locates_exact m2 1 ltac:(lia) Hm2')) as [H2 _].
  destruct (shr (shr_record_of_loc m2 loc_Exact) e1 _) as [mrs2 e2]. cbn [fst] in H2.
  destruct H2 as (H2 & _).
  assert (0 <= shr_m mrs2).
  { rewrite H2. apply Z.div_pos; [lia|].
    assert (0 < 2 ^ Z.max (fexp prec emax (Zdigits2 m2 + e1) - e1) 0)
      by (apply Z.pow_pos_nonneg; lia). lia. }
  destruct (shr_m mrs2) as [|p|p]; [now left| |lia].
  right. destruct (e2 <=? emax - prec); [right; eauto|now left].
Qed.

Lemma SFdiv_sign (x y : spec_float) (sx sy : bool) :
  (exists m e, x = S754_finite sx m e) \/ x = S754_zero sx \/ x = S754_infinity sx ->
  (exists m e, y = S754_finite sy m e) ->
  SF64div x y = S754_zero (xorb sx sy) \/
  SF64div x y = S754_infinity (xorb sx sy) \/
  exists m e, SF64div x y = S754_finite (xorb sx sy) m e.
Proof.
  intros [(mx & ex & ->)|[-> | ->]] (my & ey & ->); cbn [SF64div SFdiv]; auto.
  destruct (SFdiv_core_binary_spec mx my ex ey) as (l & E & HL). rewrite E.
  eapply binary_round_aux_sign; [| |exact HL]; [|lia].
  assert (0 < 2 ^ (ex - ey - Z.min (fexp prec emax (Zpos (digits2_pos mx) + ex - (Zpos (digits2_pos my) + ey))) (ex - ey)))
    by (apply Z.pow_pos_nonneg; lia). nia.
Qed.

Lemma SFmul_sign (x y : spec_float) (sx sy : bool) :
  (exists m e, x = S754_finite sx m e) \/ x = S754_zero sx \/ x = S754_infinity sx ->
  (exists m e, y = S754_finite sy m e) ->
  SF64mul x y = S754_zero (xorb sx sy) \/
  SF64mul x y = S754_infinity (xorb sx sy) \/
  exists m e, SF64mul x y = S754_finite (xorb sx sy) m e.
Proof.
  intros [(mx & ex & ->)|[-> | ->]] (my & ey & ->); cbn [SF64mul SFmul]; auto.
  apply (binary_round_aux_sign _ (Zpos (mx * my) * 1) 1); try lia.
  apply locates_exact; lia.
Qed.

(** *** Canonical representations *)

Lemma pos_iter_xO (p d : positive) : Zpos (Pos.iter xO p d) = Zpos p * 2 ^ Zpos d.
Proof.
  induction d as [|d IH] using Pos.peano_ind.
  - cbn [Pos.iter]. change (2 ^ 1) with 2. lia.
  - rewrite Pos.iter_succ, Pos2Z.inj_succ, Z.pow_succ_r by lia.
    change (Zpos (Pos.iter xO p d)~0) with (2 * Zpos (Pos.iter xO p d)). rewrite IH. lia.
Qed.

(** Aligning a mantissa of at most 53 bits on its canonical exponent. *)
Lemma shl_align_canonical (p : positive) (e : Z) :
  Zpos (digits2_pos p) <= 53 -> -1074 <= e <= 971 ->
  exists m' e',
    shl_align p e (fexp prec emax (Zpos (digits2_pos p) + e)) = (m', e') /\
    bounded prec emax m' e' = true /\ e' <= e /\
    Zpos m' = Zpos p * 2 ^ (e - e').
Proof.
  intros Hd He. unfold shl_align. rewrite fexp_eq.
  destruct (Z.max (Zpos (digits2_pos p) + e - 53) (-1074) - e) as [|d|d] eqn:E; try lia.
  - exists p, e. repeat split; try lia.
    + apply bounded_spec. lia.
    + rewrite Z.sub_diag. lia.
  - exists (Pos.iter xO p d), (Z.max (Zpos (digits2_pos p) + e - 53) (-1074)).
    assert (Hv : Zpos (Pos.iter xO p d) = Zpos p * 2 ^ Zpos d) by apply pos_iter_xO.
    repeat split; try lia.
    + apply bounded_spec.
      pose proof (digits2_shift p (Zpos d) ltac:(lia)) as Hs.
      rewrite <- Hv in Hs. cbn [Zdigits2] in Hs. rewrite Hs. lia.
    + rewrite Hv. f_equal. f_equal. lia.
Qed.

(** Canonical positive numbers compare as their values do. *)
Lemma SFltb_canonical (m1 m2 : positive) (e1 e2 : Z) :
  bounded prec emax m1 e1 = true -> bounded prec emax m2 e2 = true ->
  Zpos m1 * 2 ^ (e1 + 1074) < Zpos m2 * 2 ^ (e2 + 1074) ->
  SFltb (S754_finite false m1 e1) (S754_finite false m2 e2) = true.
Proof.
  intros H1 H2 Hv. apply bounded_spec in H1, H2.
  unfold SFltb, SFcompare. change (PosDef.Pos.compare_cont Eq) with Pos.compare.
  destruct (Z.compare_spec e1 e2) as [E|E|E].
  - subst e2. assert (0 < 2 ^ (e1 + 1074)) by (apply Z.pow_pos_nonneg; lia).
    assert (Zpos m1 < Zpos m2) by nia.
    now rewrite (proj2 (Pos.compare_lt_iff m1 m2)).
  - reflexivity.
  - exfalso.
    pose proof (digits2_bounds m1) as [L1 _]. pose proof (digits2_bounds m2) as [_ U2].
    assert (D1 : Zpos (digits2_pos m1) = 53) by lia. rewrite D1 in L1.
    assert (D2 : Zpos (digits2_pos m2) <= 53) by lia.
    assert (2 ^ Zpos (digits2_pos m2) <= 2 ^ 53) by (apply Z.pow_le_mono_r; lia).
    assert (0 < 2 ^ (e2 + 1074)) by (apply Z.pow_pos_nonneg; lia).
    replace (e1 + 1074) with ((e1 - e2 - 1) + 1 + (e2 + 1074)) in Hv by lia.
    rewrite !Z.pow_add_r in Hv by lia.
    assert (1 <= 2 ^ (e1 - e2 - 1)) by (apply (Z.pow_le_mono_r 2 0); lia).
    change (2 ^ (53 - 1)) with 4503599627370496 in L1.
    change (2 ^ 53) with 9007199254740992 in *. change (2 ^ 1) with 2 in Hv.
    set (A := 2 ^ (e2 + 1074)) in *. set (B := 2 ^ (e1 - e2 - 1)) in *.
    assert (4503599627370496 <= Zpos m1 * B) by nia.
    assert (9007199254740992 * A <= Zpos m1 * B * 2 * A) by nia.
    assert (Zpos m2 * A < 9007199254740992 * A) by nia.
    lia.
Qed.

Lemma digits2_le_53 (p : positive) : Zpos p < 2 ^ 53 -> Zpos (digits2_pos p) <= 53.
Proof.
  intros H. pose proof (digits2_bounds p) as [L _].
  destruct (Z.leb_spec (Zpos (digits2_pos p)) 53) as [|G]; [assumption|].
  assert (2 ^ 53 <= 2 ^ (Zpos (digits2_pos p) - 1)) by (apply Z.pow_le_mono_r; lia). lia.
Qed.

Lemma bounded_lt_2p53 (m : positive) (e : Z) :
  bounded prec emax m e = true -> Zpos m < 2 ^ 53 /\ -1074 <= e <= 971.
Proof.
  intros H. apply bounded_spec in H. pose proof (digits2_bounds m) as [_ U].
  split; [|lia].
  assert (2 ^ Zpos (digits2_pos m) <= 2 ^ 53) by (apply Z.pow_le_mono_r; lia). lia.
Qed.

(** *** Math.floor and the remainder on the specification *)

Lemma SFofpos_valid (s : bool) (p : positive) :
  Zpos p < 2 ^ 53 ->
  exists m e, SFofpos s p = S754_finite s m e /\ bounded prec emax m e = true.
Proof.
  intros H. unfold SFofpos.
  destruct (shl_align_canonical p 0 (digits2_le_53 p H) ltac:(lia)) as (m' & e' & E & Hb & _).
  rewrite Z.add_0_r in E. rewrite E. eauto.
Qed.

Lemma SFfloor_valid (x : spec_float) :
  valid_binary x = true -> valid_binary (SFfloor x) = true.
Proof.
  destruct x as [s|s| |s m e]; try reflexivity. cbn [valid_binary SFfloor]. intros Hb.
  destruct (Z.leb_spec 0 e) as [|He]; [exact Hb|].
  pose proof (bounded_lt_2p53 m e Hb) as [Hm _].
  assert (H2 : 0 < 2 ^ (- e)) by (apply Z.pow_pos_nonneg; lia).
  assert (Hq : - Zpos m <= (if s then Zneg m else Zpos m) / 2 ^ (- e) <= Zpos m).
  { destruct s.
    - split; [apply Z.div_le_lower_bound; nia|]. 
      assert (Zneg m / 2 ^ (- e) < 0) by (apply Z.div_lt_upper_bound; lia). lia.
    - split; [assert (0 <= Zpos m / 2 ^ (- e)) by (apply Z.div_pos; lia); lia|].
      apply Z.div_le_upper_bound; nia. }
  destruct ((if s then Zneg m else Zpos m) / 2 ^ (- e)) as [|p|p]; cbn [SFofZ]; try reflexivity.
  - destruct (SFofpos_valid false p ltac:(lia)) as (m' & e' & -> & Hb'). exact Hb'.
  - destruct (SFofpos_valid true p ltac:(lia)) as (m' & e' & -> & Hb'). exact Hb'.
Qed.

(** The floor of a number that is not negative is not negative. *)
Lemma SFfloor_nonneg (x : spec_float) :
  valid_binary x = true -> SFleb (S754_zero false) x = true ->
  SFleb (S754_zero false) (SFfloor x) = true.
Proof.
  destruct x as [s|s| |s m e]; try (intros; assumption). cbn [valid_binary SFfloor].
  intros Hb Hs. destruct s; [discriminate|].
  destruct (Z.leb_spec 0 e) as [|He]; [reflexivity|].
  pose proof (bounded_lt_2p53 m e Hb) as [Hm _].
  assert (H2 : 0 < 2 ^ (- e)) by (apply Z.pow_pos_nonneg; lia).
  assert (0 <= Zpos m / 2 ^ (- e) <= Zpos m).
  { split; [apply Z.div_pos; lia| apply Z.div_le_upper_bound; nia]. }
  destruct (Zpos m / 2 ^ (- e)) as [|p|p]; cbn [SFofZ]; try reflexivity; try lia.
  destruct (SFofpos_valid false p ltac:(lia)) as (m' & e' & -> & _). reflexivity.
Qed.

Lemma SFofpos_spec (s : bool) (p : positive) :
  Zpos p < 2 ^ 53 ->
  exists m e, SFofpos s p = S754_finite s m e /\ bounded prec emax m e = true /\
    e <= 0 /\ Zpos m = Zpos p * 2 ^ (- e).
Proof.
  intros H. unfold SFofpos.
  destruct (shl_align_canonical p 0 (digits2_le_53 p H) ltac:(lia)) as (m' & e' & E & Hb & He & Hv).
  rewrite Z.add_0_r in E. rewrite E. exists m', e'. repeat split; try assumption.
Qed.

(** The floor of a number is its own floor: it is a whole number, or not
    finite. *)
Lemma SFfloor_idem (x : spec_float) :
  valid_binary x = true -> SFfloor (SFfloor x) = SFfloor x.
Proof.
  destruct x as [s|s| |s m e]; try reflexivity. cbn [valid_binary]. intros Hb.
  cbn [SFfloor]. destruct (Z.leb_spec 0 e) as [He|He].
  { cbn [SFfloor]. destruct (Z.leb_spec 0 e); [reflexivity|lia]. }
  pose proof (bounded_lt_2p53 m e Hb) as [Hm _].
  assert (H2 : 0 < 2 ^ (- e)) by (apply Z.pow_pos_nonneg; lia).
  assert (Hq : - Zpos m <= (if s then Zneg m else Zpos m) / 2 ^ (- e) <= Zpos m).
  { destruct s.
    - split; [apply Z.div_le_lower_bound; nia|].
      assert (Zneg m / 2 ^ (- e) < 0) by (apply Z.div_lt_upper_bound; lia). lia.
    - split; [assert (0 <= Zpos m / 2 ^ (- e)) by (apply Z.div_pos; lia); lia|].
      apply Z.div_le_upper_bound; nia. }
  destruct ((if s then Zneg m else Zpos m) / 2 ^ (- e)) as [|p|p]; cbn [SFofZ]; try reflexivity.
  - destruct (SFofpos_spec false p ltac:(lia)) as (m' & e' & E & Hb' & He' & Hv). rewrite E.
    cbn [SFfloor]. destruct (Z.leb_spec 0 e'); [reflexivity|].
    assert (0 < 2 ^ (- e')) by (apply Z.pow_pos_nonneg; lia).
    rewrite Hv, Z.div_mul by lia. cbn [SFofZ]. exact E.
  - destruct (SFofpos_spec true p ltac:(lia)) as (m' & e' & E & Hb' & He' & Hv). rewrite E.
    cbn [SFfloor]. destruct (Z.leb_spec 0 e'); [reflexivity|].
    assert (0 < 2 ^ (- e')) by (apply Z.pow_pos_nonneg; lia).
    replace (Zneg m') with (Zneg p * 2 ^ (- e')) by lia.
    rewrite Z.div_mul by lia. cbn [SFofZ]. exact E.
Qed.

(** [n % d] for a finite [n >= 0] and a finite [d > 0]: a zero, or a
    canonical positive number below [d]. *)
Lemma SFrem_range (n : spec_float) (md : positive) (ed : Z) :
  valid_binary n = true -> bounded prec emax md ed = true ->
  SFleb (S754_zero false) n = true -> SFltb n (S754_infinity false) = true ->
  (exists s, SFrem n (S754_finite false md ed) = S754_zero s) \/
  exists m e, SFrem n (S754_finite false md ed) = S754_finite false m e /\
    bounded prec emax m e = true /\
    Zpos m * 2 ^ (e + 1074) < Zpos md * 2 ^ (ed + 1074).
Proof.
  intros Hn Hd H0 Hinf.
  destruct n as [s|[]| |[] mn en]; try discriminate; cbn [SFrem].
  - left. eauto.
  - cbn [valid_binary] in Hn.
    pose proof (bounded_lt_2p53 mn en Hn) as [Hmn Hen].
    pose proof (bounded_lt_2p53 md ed Hd) as [Hmd Hed].
    set (e := Z.min en ed).
    set (X := Zpos mn * 2 ^ (en - e)). set (Y := Zpos md * 2 ^ (ed - e)).
    assert (H2n : 0 < 2 ^ (en - e)) by (apply Z.pow_pos_nonneg; unfold e; lia).
    assert (H2d : 0 < 2 ^ (ed - e)) by (apply Z.pow_pos_nonneg; unfold e; lia).
    assert (HY : 0 < Y) by (unfold Y; nia).
    assert (HX : 0 <= X) by (unfold X; nia).
    pose proof (Z.mod_pos_bound X Y HY) as HR.
    pose proof (Z.mod_le X Y HX HY) as HRX.
    destruct (X mod Y) as [|p|p] eqn:ER; [left; eauto| |lia].
    right.
    assert (Hp : Zpos p < 2 ^ 53).
    { destruct (Z.leb_spec en ed).
      - assert (e = en) by (unfold e; lia).
        unfold X in HRX. replace (en - e) with 0 in HRX by lia.
        rewrite Z.pow_0_r in HRX. lia.
      - assert (e = ed) by (unfold e; lia).
        unfold Y in HR. replace (ed - e) with 0 in HR by lia.
        rewrite Z.pow_0_r in HR. lia. }
    destruct (shl_align_canonical p e (digits2_le_53 p Hp) ltac:(unfold e; lia))
      as (m' & e' & E & Hb & He' & Hv).
    rewrite E. exists m', e'. repeat split; [assumption|].
    pose proof (bounded_lt_2p53 m' e' Hb) as [_ Hb'].
    assert (He : -1074 <= e <= 971) by (unfold e; lia).
    rewrite Hv.
    replace (Zpos p * 2 ^ (e - e') * 2 ^ (e' + 1074)) with (Zpos p * 2 ^ (e + 1074)).
    2:{ rewrite <- Z.mul_assoc, <- Z.pow_add_r by lia. do 2 f_equal. lia. }
    replace (Zpos md * 2 ^ (ed + 1074)) with (Y * 2 ^ (e + 1074)).
    2:{ unfold Y. rewrite <- Z.mul_assoc, <- Z.pow_add_r by lia. do 2 f_equal. lia. }
    assert (0 < 2 ^ (e + 1074)) by (apply Z.pow_pos_nonneg; lia).
    nia.
Qed.

Lemma shr_m_of_loc (m : Z) (l : location) : shr_m (shr_record_of_loc m l) = m.
Proof. destruct l as [|[]]; reflexivity. Qed.

Lemma Zdigits2_bounds (m : Z) :
  0 < m -> 2 ^ (Zdigits2 m - 1) <= m < 2 ^ Zdigits2 m.
Proof. destruct m as [|p|p]; try lia. intros _. apply digits2_bounds. Qed.

Lemma Zdigits2_unique (m d : Z) :
  0 < m -> 2 ^ (d - 1) <= m < 2 ^ d -> Zdigits2 m = d.
Proof. destruct m as [|p|p]; try lia. intros _. apply digits2_unique. Qed.

(** Rounding in the normal range: the result is a normal number within
    half a unit in the last place of the located rational. *)
Lemma binary_round_aux_normal (s : bool) (N D mx ex : Z) (lx : location) :
  0 <= N -> 0 < D -> locates N D (shr_record_of_loc mx lx) ->
  53 <= Zdigits2 mx -> -1074 <= Zdigits2 mx + ex - 53 -> Zdigits2 mx + ex <= 1023 ->
  exists m e,
    binary_round_aux prec emax s mx ex lx = S754_finite s m e /\
    bounded prec emax m e = true /\
    Zpos (digits2_pos m) = 53 /\
    (e = Zdigits2 mx + ex - 53 \/ e = Zdigits2 mx + ex - 52) /\
    2 ^ 53 * Z.abs (Zpos m * 2 ^ (e - ex) * D - N) <= N.
Proof.
  intros HN HD HL Hd Hlo Hhi.
  pose proof HL as (Hmx & _). rewrite shr_m_of_loc in Hmx.
  assert (Hpos : 0 < mx).
  { assert (0 <= mx) by (rewrite Hmx; apply Z.div_pos; lia).
    destruct mx; cbn in Hd; lia. }
  pose proof (Zdigits2_bounds mx Hpos) as [Bl Bu].
  set (d := Zdigits2 mx) in *. set (n := d - 53).
  assert (H2n : 0 < 2 ^ n) by (apply Z.pow_pos_nonneg; unfold n; lia).
  unfold binary_round_aux, shr_fexp. fold d. rewrite fexp_eq.
  replace (Z.max (d + ex - 53) (-1074) - ex) with n by (unfold n; lia).
  pose proof (shr_locates N D _ ex n HN HD HL) as [H1 He1].
  destruct (shr (shr_record_of_loc mx lx) ex n) as [mrs1 e1]. cbn [fst snd] in H1, He1.
  replace (Z.max n 0) with n in * by (unfold n; lia).
  assert (HD1 : 0 < D * 2 ^ n) by nia.
  pose proof (round_nearest_even_locates N _ mrs1 HN HD1 H1) as (Hm2 & Herr & _).
  set (m2 := round_nearest_even (shr_m mrs1) (loc_of_shr_record mrs1)) in *.
  (* the shifted mantissa has 53 bits *)
  assert (Hm1 : N / (D * 2 ^ n) = mx / 2 ^ n) by (rewrite <- Z.div_div, Hmx by lia; reflexivity).
  assert (Hd53 : 2 ^ 52 * 2 ^ n <= mx < 2 ^ 53 * 2 ^ n).
  { assert (E1 : 2 ^ (d - 1) = 2 ^ 52 * 2 ^ n)
      by (rewrite <- Z.pow_add_r by (unfold n; lia); f_equal; unfold n; lia).
    assert (E2 : 2 ^ d = 2 ^ 53 * 2 ^ n)
      by (rewrite <- Z.pow_add_r by (unfold n; lia); f_equal; unfold n; lia).
    lia. }
  assert (Hr1 : 2 ^ 52 <= mx / 2 ^ n < 2 ^ 53).
  { split; [apply Z.div_le_lower_bound; lia|apply Z.div_lt_upper_bound; lia]. }
  assert (Hr2 : 2 ^ 52 <= m2 <= 2 ^ 53) by lia.
  (* the error is at most half a unit, which is at most N / 2^53 *)
  assert (HND : mx * D <= N).
  { rewrite Hmx. pose proof (Z.mul_div_le N D HD). lia. }
  assert (Hbound : 2 ^ 53 * Z.abs (m2 * 2 ^ n * D - N) <= N).
  { replace (m2 * 2 ^ n * D) with (m2 * (D * 2 ^ n)) by ring.
    change (2 ^ 53) with (2 * 2 ^ 52).
    assert (2 ^ 52 * (D * 2 ^ n) <= N) by nia.
    nia. }
  assert (He1' : e1 = d + ex - 53) by (unfold n in He1; lia).
  destruct (Z.eq_dec m2 (2 ^ 53)) as [E|NE].
  - (* the rounded mantissa is 2^53: one more shift *)
    rewrite E. change (Zdigits2 (2 ^ 53)) with 54. rewrite fexp_eq.
    replace (Z.max (54 + e1 - 53) (-1074) - e1) with 1 by lia.
    change (shr (shr_record_of_loc (2 ^ 53) loc_Exact) e1 1)
      with (Build_shr_record (Zpos 4503599627370496) false false, e1 + 1).
    cbv beta iota. cbn [shr_m]. cbv beta iota.
    destruct (Z.leb_spec (e1 + 1) (emax - prec)) as [_|Hc];
      [|change (emax - prec) with 971 in Hc; lia].
    exists 4503599627370496%positive, (e1 + 1). split; [reflexivity|].
    split; [apply bounded_spec; change (Zpos (digits2_pos 4503599627370496)) with 53; lia|].
    split; [reflexivity|]. split; [lia|].
    replace (e1 + 1 - ex) with (1 + n) by (unfold n; lia).
    rewrite Z.pow_add_r by (unfold n; lia).
    replace (Zpos 4503599627370496 * (2 ^ 1 * 2 ^ n)) with (m2 * 2 ^ n).
    + exact Hbound.
    + rewrite E. change (Zpos 4503599627370496) with (2 ^ 52).
      change (2 ^ 53) with (2 ^ 52 * 2 ^ 1). ring.
  - assert (Hm2pos : 0 < m2) by lia.
    assert (Hdig : Zdigits2 m2 = 53) by (apply Zdigits2_unique; [assumption|]; change (53 - 1) with 52; lia).
    rewrite Hdig, fexp_eq.
    replace (Z.max (53 + e1 - 53) (-1074) - e1) with 0 by lia.
    cbn [shr shr_record_of_loc shr_m].
    destruct m2 as [|p|p] eqn:Em; try lia.
    destruct (Z.leb_spec e1 (emax - prec)) as [_|Hc];
      [|change (emax - prec) with 971 in Hc; lia].
    exists p, e1. split; [reflexivity|].
    cbn [Zdigits2] in Hdig.
    split; [apply bounded_spec; lia|]. split; [assumption|]. split; [lia|].
    replace (e1 - ex) with n by (unfold n; lia). exact Hbound.
Qed.


End Binary64.

(** ** Relative error of products and quotients *)

Module Values.

Import Rounding Binary64.
Local Open Scope Q_scope.

Lemma Qpow2_pos (e : Z) : 0 < 2 ^ e.
Proof. apply Qpower_0_lt. reflexivity. Qed.

Lemma Qval_pos (m : positive) (e : Z) : 0 < Qval m e.
Proof.
  unfold Qval. apply Qmult_lt_0_compat; [|apply Qpow2_pos].
  change 0 with (inject_Z 0). rewrite <- Zlt_Qlt. lia.
Qed.

Lemma Qval_shift (m : positive) (e E : Z) :
  (E <= e)%Z -> Qval m e == inject_Z (Zpos m * 2 ^ (e - E)) * 2 ^ E.
Proof.
  intros H. unfold Qval. rewrite inject_Z_mult, Zpower_Qpower by lia.
  replace e with ((e - E) + E)%Z at 1 by lia.
  rewrite Qpower_plus by discriminate. change (inject_Z 2) with 2. ring.
Qed.

(** From the integer bound of [binary_round_aux_normal] to a relative
    bound on values. *)
Lemma scale_bounds (A N D : Z) (p : Q) :
  (0 < D)%Z -> 0 < p ->
  (2 ^ 53 * Z.abs (A * D - N) <= N)%Z ->
  (1 - u64) * (inject_Z N / inject_Z D * p) <= inject_Z A * p <=
  (1 + u64) * (inject_Z N / inject_Z D * p).
Proof.
  intros HD Hp H.
  assert (Hd : 0 < inject_Z D) by (change 0 with (inject_Z 0); rewrite <- Zlt_Qlt; lia).
  set (x := inject_Z N / inject_Z D).
  assert (Hx : inject_Z N == x * inject_Z D) by (unfold x; field; lra).
  assert (H1 : (9007199254740992 * (A * D - N) <= N)%Z) by lia.
  assert (H2 : (9007199254740992 * (N - A * D) <= N)%Z) by lia.
  rewrite Zle_Qle in H1, H2.
  unfold Z.sub in H1, H2.
  repeat (rewrite inject_Z_mult in H1 || rewrite inject_Z_plus in H1 || rewrite inject_Z_opp in H1).
  repeat (rewrite inject_Z_mult in H2 || rewrite inject_Z_plus in H2 || rewrite inject_Z_opp in H2).
  rewrite Hx in H1, H2.
  change (inject_Z 9007199254740992) with 9007199254740992 in H1, H2.
  assert (B1 : (1 - u64) * x <= inject_Z A).
  { apply (Qmult_le_r _ _ (inject_Z D) Hd). unfold u64. lra. }
  assert (B2 : inject_Z A <= (1 + u64) * x).
  { apply (Qmult_le_r _ _ (inject_Z D) Hd). unfold u64. lra. }
  split.
  - setoid_replace ((1 - u64) * (x * p)) with ((1 - u64) * x * p) by ring.
    apply Qmult_le_compat_r; lra.
  - setoid_replace ((1 + u64) * (x * p)) with ((1 + u64) * x * p) by ring.
    apply Qmult_le_compat_r; lra.
Qed.

Lemma normal_mantissa (m : positive) (e : Z) :
  normal m e -> (2 ^ 52 <= Zpos m < 2 ^ 53)%Z.
Proof.
  intros [_ H]. pose proof (digits2_bounds m) as B. rewrite H in B. exact B.
Qed.

(** The product of two normal numbers, away from overflow and underflow. *)
Lemma SFmul_normal (sx sy : bool) (mx my : positive) (ex ey : Z) :
  normal mx ex -> normal my ey -> (-1126 <= ex + ey <= 917)%Z ->
  exists mz ez,
    SF64mul (S754_finite sx mx ex) (S754_finite sy my ey) = S754_finite (xorb sx sy) mz ez /\
    normal mz ez /\ (ex + ey + 52 <= ez <= ex + ey + 54)%Z /\
    (1 - u64) * (Qval mx ex * Qval my ey) <= Qval mz ez <=
    (1 + u64) * (Qval mx ex * Qval my ey).
Proof.
  intros Hx Hy He. cbn [SF64mul SFmul].
  pose proof (normal_mantissa mx ex Hx) as Bx. pose proof (normal_mantissa my ey Hy) as By.
  set (N := Zpos (mx * my)).
  assert (HN : (2 ^ 104 <= N < 2 ^ 106)%Z).
  { unfold N. rewrite Pos2Z.inj_mul.
    change (2 ^ 104)%Z with (2 ^ 52 * 2 ^ 52)%Z. change (2 ^ 106)%Z with (2 ^ 53 * 2 ^ 53)%Z.
    nia. }
  assert (Hd : (Zdigits2 N = 105 \/ Zdigits2 N = 106)%Z).
  { destruct (Z.ltb_spec N (2 ^ 105)).
    - left. apply Zdigits2_unique; [lia|]. change (105 - 1)%Z with 104%Z. lia.
    - right. apply Zdigits2_unique; [lia|]. change (106 - 1)%Z with 105%Z. lia. }
  destruct (binary_round_aux_normal (xorb sx sy) (N * 1) 1 N (ex + ey) loc_Exact)
    as (mz & ez & E & Hb & Hdz & Hez & Herr); try lia.
  { apply locates_exact; lia. }
  exists mz, ez. split; [exact E|]. split; [split; assumption|]. split; [lia|].
  rewrite (Qval_shift mz ez (ex + ey)) by lia.
  setoid_replace (Qval mx ex * Qval my ey)
    with (inject_Z (N * 1) / inject_Z 1 * 2 ^ (ex + ey)).
  - apply scale_bounds; [lia|apply Qpow2_pos|exact Herr].
  - unfold Qval, N. rewrite Z.mul_1_r, Pos2Z.inj_mul, inject_Z_mult, Qpower_plus by discriminate.
    field.
Qed.

(** The quotient of two normal numbers, away from overflow and underflow. *)
Lemma SFdiv_normal (sx sy : bool) (mx my : positive) (ex ey : Z) :
  normal mx ex -> normal my ey -> (-1021 <= ex - ey <= 1022)%Z ->
  exists mz ez,
    SF64div (S754_finite sx mx ex) (S754_finite sy my ey) = S754_finite (xorb sx sy) mz ez /\
    normal mz ez /\ (ex - ey - 53 <= ez <= ex - ey - 51)%Z /\
    (1 - u64) * (Qval mx ex / Qval my ey) <= Qval mz ez <=
    (1 + u64) * (Qval mx ex / Qval my ey).
Proof.
  intros Hx Hy He. cbn [SF64div SFdiv].
  pose proof (normal_mantissa mx ex Hx) as Bx. pose proof (normal_mantissa my ey Hy) as By.
  destruct (SFdiv_core_binary_spec mx my ex ey) as (l & E & HL). rewrite E. clear E.
  destruct Hx as [Hbx Hdx], Hy as [Hby Hdy]. rewrite Hdx, Hdy, fexp_eq in HL |- *.
  replace (Z.min (Z.max (53 + ex - (53 + ey) - 53) (-1074)) (ex - ey))%Z
    with (ex - ey - 53)%Z in * by lia.
  replace (ex - ey - (ex - ey - 53))%Z with 53%Z in * by lia.
  set (N := (Zpos mx * 2 ^ 53)%Z) in *.
  assert (HN : (0 <= N)%Z) by (unfold N; lia).
  assert (Hq : (2 ^ 52 <= N / Zpos my < 2 ^ 54)%Z).
  { split.
    - apply Z.div_le_lower_bound; [lia|]. unfold N. nia.
    - apply Z.div_lt_upper_bound; [lia|]. unfold N.
      change (2 ^ 54)%Z with (2 ^ 53 * 2)%Z. nia. }
  assert (Hd : (Zdigits2 (N / Zpos my) = 53 \/ Zdigits2 (N / Zpos my) = 54)%Z).
  { destruct (Z.ltb_spec (N / Zpos my) (2 ^ 53)).
    - left. apply Zdigits2_unique; [lia|]. change (53 - 1)%Z with 52%Z. lia.
    - right. apply Zdigits2_unique; [lia|]. change (54 - 1)%Z with 53%Z. lia. }
  destruct (binary_round_aux_normal (xorb sx sy) N (Zpos my) (N / Zpos my) (ex - ey - 53) l)
    as (mz & ez & E & Hb & Hdz & Hez & Herr); try lia; try assumption.
  exists mz, ez. split; [exact E|]. split; [split; assumption|]. split; [lia|].
  rewrite (Qval_shift mz ez (ex - ey - 53)) by lia.
  setoid_replace (Qval mx ex / Qval my ey)
    with (inject_Z N / inject_Z (Zpos my) * 2 ^ (ex - ey - 53)).
  - apply scale_bounds; [lia|apply Qpow2_pos|exact Herr].
  - unfold Qval, N. rewrite inject_Z_mult.
    change (inject_Z (2 ^ 53)) with (2 ^ 53).
    replace ex with (ey + 53 + (ex - ey - 53))%Z at 1 by lia.
    rewrite !Qpower_plus by discriminate.
    pose proof (Qpow2_pos ey). 
    assert (0 < inject_Z (Zpos my)) by (change 0 with (inject_Z 0); rewrite <- Zlt_Qlt; lia).
    field. split; lra.
Qed.

(** *** Chains of products and quotients *)

Lemma Qmult_between (L H v X c : Q) :
  0 < c -> L * X <= v <= H * X -> L * (X * c) <= v * c <= H * (X * c).
Proof.
  intros Hc [H1 H2]. split.
  - setoid_replace (L * (X * c)) with (L * X * c) by ring. apply Qmult_le_compat_r; lra.
  - setoid_replace (H * (X * c)) with (H * X * c) by ring. apply Qmult_le_compat_r; lra.
Qed.

Lemma Qdiv_between (L H v X c : Q) :
  0 < c -> L * X <= v <= H * X -> L * (X / c) <= v / c <= H * (X / c).
Proof.
  intros Hc HB. unfold Qdiv. apply Qmult_between; [|assumption].
  now apply Qinv_lt_0_compat.
Qed.

(** One more rounding on top of [k]. *)
Lemma Qround_between (L H v X z : Q) :
  0 <= L -> 0 <= H -> 0 <= X ->
  L * X <= v <= H * X ->
  (1 - u64) * v <= z <= (1 + u64) * v ->
  (1 - u64) * L * X <= z <= (1 + u64) * H * X.
Proof.
  intros HL HH HX [H1 H2] [H3 H4]. unfold u64 in *. split; lra.
Qed.

(** [q * a / b] on normal numbers. *)
Lemma SFconvert_normal (mq ma mb : positive) (eq ea eb : Z) :
  normal mq eq -> normal ma ea -> normal mb eb ->
  (-52 <= ea <= -43)%Z -> (-52 <= eb <= -43)%Z -> (-1064 <= eq <= 959)%Z ->
  exists mr er,
    SF64div (SF64mul (S754_finite false mq eq) (S754_finite false ma ea))
            (S754_finite false mb eb) = S754_finite false mr er /\
    normal mr er /\ (eq - 10 <= er <= eq + 12)%Z /\
    ((1 - u64) * (1 - u64) * (Qval mq eq * Qval ma ea / Qval mb eb) <= Qval mr er <=
     (1 + u64) * (1 + u64) * (Qval mq eq * Qval ma ea / Qval mb eb))%Q.
Proof.
  intros Hq Ha Hb Ea Eb Eq.
  destruct (SFmul_normal false false mq ma eq ea Hq Ha ltac:(lia))
    as (m1 & e1 & E1 & N1 & R1 & B1).
  rewrite E1. cbn [xorb].
  destruct (SFdiv_normal false false m1 mb e1 eb N1 Hb ltac:(lia))
    as (mr & er & E2 & N2 & R2 & B2).
  rewrite E2. cbn [xorb].
  exists mr, er. split; [reflexivity|]. split; [assumption|]. split; [lia|].
  pose proof (Qval_pos mq eq). pose proof (Qval_pos ma ea). pose proof (Qval_pos mb eb).
  apply (Qround_between _ _ (Qval m1 e1 / Qval mb eb)).
  - unfold u64; lra.
  - unfold u64; lra.
  - apply Qlt_le_weak, Qmult_lt_0_compat; [apply Qmult_lt_0_compat; assumption|].
    now apply Qinv_lt_0_compat.
  - apply Qdiv_between; assumption.
  - exact B2.
Qed.

End Values.

(** ** Facts on numbers *)

Module Number.

Import Rounding Tolerance Order Binary64 Values.

Lemma Prim2SF_SFfloor (x : number) : Prim2SF (Math_floor x) = SFfloor (Prim2SF x).
Proof.
  unfold Math_floor. apply Prim2SF_SF2Prim, SFfloor_valid, Prim2SF_valid.
Qed.

Lemma mul_one_r (q : number) : q * 1 = q.
Proof.
  apply Prim2SF_inj. rewrite mul_spec. change (Prim2SF 1) with SFone.
  apply SFmul_one, Prim2SF_valid.
Qed.

Lemma div_one_r (q : number) : q / 1 = q.
Proof.
  apply Prim2SF_inj. rewrite div_spec. change (Prim2SF 1) with SFone.
  apply SFdiv_one, Prim2SF_valid.
Qed.

(** A number that is at least 0 is a zero, positive or [+Infinity]. *)
Lemma ge_zero_cases (q : number) :
  ge q 0 = true ->
  (exists m e, Prim2SF q = S754_finite false m e) \/
  (exists s, Prim2SF q = S754_zero s) \/ Prim2SF q = S754_infinity false.
Proof.
  unfold ge. rewrite leb_spec. change (Prim2SF 0) with (S754_zero false).
  destruct (Prim2SF q) as [s|[]| |[] m e]; try discriminate; eauto.
Qed.

Lemma ge_zero_of_cases (q : number) :
  (exists m e, Prim2SF q = S754_finite false m e) \/
  (exists s, Prim2SF q = S754_zero s) \/ Prim2SF q = S754_infinity false ->
  ge q 0 = true.
Proof.
  unfold ge. rewrite leb_spec. change (Prim2SF 0) with (S754_zero false).
  intros [(m & e & ->)|[(s & ->)| ->]]; reflexivity.
Qed.

(** Dividing a number that is at least 0 by a positive finite number. *)
Lemma div_nonneg (q c : number) :
  ge q 0 = true -> (exists m e, Prim2SF c = S754_finite false m e) ->
  ge (q / c) 0 = true.
Proof.
  intros Hq Hc. apply ge_zero_of_cases. rewrite div_spec.
  destruct (ge_zero_cases q Hq) as [Hf|[(s & Hz)| Hi]].
  - destruct (SFdiv_sign (Prim2SF q) (Prim2SF c) false false) as [H|[H|H]]; auto;
      rewrite ?H; cbn [xorb] in *; eauto.
  - destruct Hc as (m & e & ->). rewrite Hz. cbn. eauto.
  - destruct Hc as (m & e & ->). rewrite Hi. cbn. eauto.
Qed.

Lemma Math_floor_nonneg (y : number) : ge y 0 = true -> ge (Math_floor y) 0 = true.
Proof.
  unfold ge. rewrite !leb_spec, Prim2SF_SFfloor. change (Prim2SF 0) with (S754_zero false).
  apply SFfloor_nonneg, Prim2SF_valid.
Qed.

Lemma Math_floor_idem (x : number) : Math_floor (Math_floor x) = Math_floor x.
Proof.
  unfold Math_floor at 1. rewrite Prim2SF_SFfloor, SFfloor_idem by apply Prim2SF_valid.
  reflexivity.
Qed.

(** [n % d] for a finite [n >= 0] and a finite [d > 0]. *)
Lemma Prim2SF_rem_range (q d : number) (md : positive) (ed : Z) :
  Prim2SF d = S754_finite false md ed ->
  ge q 0 = true -> PrimFloat.ltb q infinity = true ->
  (exists s, Prim2SF (rem q d) = S754_zero s) \/
  exists m e, Prim2SF (rem q d) = S754_finite false m e /\
    bounded prec emax m e = true /\
    (Zpos m * 2 ^ (e + 1074) < Zpos md * 2 ^ (ed + 1074))%Z.
Proof.
  intros Hd Hq Hf. unfold ge in Hq. rewrite leb_spec in Hq. rewrite ltb_spec in Hf.
  change (Prim2SF 0) with (S754_zero false) in Hq.
  change (Prim2SF infinity) with (S754_infinity false) in Hf.
  pose proof (Prim2SF_valid d) as Vd. rewrite Hd in Vd. cbn [valid_binary] in Vd.
  unfold rem. rewrite Hd.
  destruct (SFrem_range (Prim2SF q) md ed (Prim2SF_valid q) Vd Hq Hf)
    as [(s & E)|(m & e & E & Hb & Hv)]; rewrite E.
  - left. exists s. now apply Prim2SF_SF2Prim.
  - right. exists m, e. split; [now apply Prim2SF_SF2Prim|]. now split.
Qed.

Lemma rem_range (q d : number) :
  (exists m e, Prim2SF d = S754_finite false m e) ->
  ge q 0 = true -> PrimFloat.ltb q infinity = true ->
  ge (rem q d) 0 = true /\ PrimFloat.ltb (rem q d) d = true.
Proof.
  intros (md & ed & Hd) Hq Hf.
  pose proof (Prim2SF_valid d) as Vd. rewrite Hd in Vd. cbn [valid_binary] in Vd.
  destruct (Prim2SF_rem_range q d md ed Hd Hq Hf) as [(s & E)|(m & e & E & Hb & Hv)].
  - split; [apply ge_zero_of_cases; eauto|]. rewrite ltb_spec, E, Hd. reflexivity.
  - split; [apply ge_zero_of_cases; eauto|]. rewrite ltb_spec, E, Hd.
    now apply SFltb_canonical.
Qed.

(** The two decimals of a number below 28. *)
Lemma fixed_int_lt_28 (m : positive) (e : Z) :
  (-1074 <= e)%Z ->
  (Zpos m * 2 ^ (e + 1074) < 28 * 2 ^ 1074)%Z ->
  (10 ^ 21 * 2 ^ Z.max (- e) 0 <=? Zpos m * 2 ^ Z.max e 0)%Z = false /\
  (0 <= fixed_int 2 m e <= 2800)%Z.
Proof.
  intros He Hv. unfold fixed_int. change (10 ^ Z.of_nat 2)%Z with 100%Z.
  change (10 ^ 21)%Z with 1000000000000000000000%Z.
  assert (H1074 : (0 < 2 ^ 1074)%Z) by (apply Z.pow_pos_nonneg; lia).
  destruct (Z.leb_spec 0 e) as [Hp|Hn].
  - rewrite Z.pow_add_r in Hv by lia.
    assert (0 < 2 ^ e)%Z by (apply Z.pow_pos_nonneg; lia).
    assert (Zpos m * 2 ^ e < 28)%Z by nia.
    rewrite (Z.max_l e 0), (Z.max_r (- e) 0) by lia. rewrite Z.pow_0_r.
    split; [apply Z.leb_gt; lia|].
    replace (Zpos m * 100 * 2 ^ e)%Z with (100 * (Zpos m * 2 ^ e))%Z by ring. nia.
  - set (k := (- e)%Z). assert (Hk : (0 < k <= 1074)%Z) by (unfold k; lia).
    replace (e + 1074)%Z with (1074 - k)%Z in Hv by (unfold k; lia).
    replace 1074%Z with (k + (1074 - k))%Z in Hv at 2 by lia.
    rewrite (Z.pow_add_r 2 k) in Hv by lia.
    assert (0 < 2 ^ k)%Z by (apply Z.pow_pos_nonneg; lia).
    assert (0 < 2 ^ (1074 - k))%Z by (apply Z.pow_pos_nonneg; lia).
    assert (Hm : (Zpos m < 28 * 2 ^ k)%Z) by nia.
    rewrite (Z.max_l k 0), (Z.max_r e 0) by lia. rewrite Z.pow_0_r.
    split; [apply Z.leb_gt; lia|].
    replace (1 - e)%Z with (1 + k)%Z by (unfold k; lia).
    rewrite Z.pow_add_r by lia. change (2 ^ 1)%Z with 2%Z.
    split; [apply Z.div_pos; lia|].
    assert ((2 * (Zpos m * 100) + 2 ^ k) / (2 * 2 ^ k) < 2801)%Z
      by (apply Z.div_lt_upper_bound; lia).
    lia.
Qed.

Lemma toFixed_rem_28 (q : number) :
  ge q 0 = true -> PrimFloat.ltb q infinity = true ->
  exists n, (0 <= n <= 2800)%Z /\ toFixed (rem q 28) 2 = fixed_digits 2 n.
Proof.
  intros Hq Hf. unfold toFixed.
  destruct (Prim2SF_rem_range q 28 7881299347898368 (-48) eq_refl Hq Hf)
    as [(s & E)|(m & e & E & Hb & Hv)]; rewrite E; cbn [SFtoFixed].
  - exists 0%Z. split; [lia|reflexivity].
  - pose proof (bounded_lt_2p53 m e Hb) as [_ He].
    assert (Hv' : (Zpos m * 2 ^ (e + 1074) < 28 * 2 ^ 1074)%Z).
    { replace (28 * 2 ^ 1074)%Z with (7881299347898368 * 2 ^ (-48 + 1074))%Z
        by (vm_compute; reflexivity).
      exact Hv. }
    destruct (fixed_int_lt_28 m e ltac:(lia) Hv') as [Hc Hn].
    rewrite Hc. exists (fixed_int 2 m e). split; [assumption|reflexivity].
Qed.

Lemma toGrams_normal (u : Inventory.unit) :
  exists m e, Prim2SF (Inventory.toGrams u) = S754_finite false m e /\
    normal m e /\ (-52 <= e <= -43)%Z.
Proof.
  destruct u; do 2 eexists; (split; [vm_compute; reflexivity|]);
    (split; [split; vm_compute; reflexivity|lia]).
Qed.

Lemma Prim2SF_convert (q : number) (u v : Inventory.unit) :
  Prim2SF (Inventory.convert q u v) =
  SF64div (SF64mul (Prim2SF q) (Prim2SF (Inventory.toGrams u))) (Prim2SF (Inventory.toGrams v)).
Proof. unfold Inventory.convert. now rewrite div_spec, mul_spec. Qed.

(** A number between [lo] and [hi], two positive normal numbers, is
    normal with an exponent between theirs. *)
Lemma between_normal (q lo hi : number) (mlo mhi : positive) (elo ehi : Z) :
  Prim2SF lo = S754_finite false mlo elo -> Prim2SF hi = S754_finite false mhi ehi ->
  (-1074 < elo)%Z ->
  PrimFloat.leb lo q = true -> PrimFloat.leb q hi = true ->
  exists m e, Prim2SF q = S754_finite false m e /\ normal m e /\ (elo <= e <= ehi)%Z.
Proof.
  intros Hlo Hhi Hel. rewrite !leb_spec, Hlo, Hhi.
  pose proof (Prim2SF_valid q) as V.
  destruct (Prim2SF q) as [s|s| |s m e]; unfold SFleb; cbn [SFcompare];
    try discriminate; try (destruct s; discriminate).
  destruct s; [discriminate|]. cbn [valid_binary] in V.
  destruct (Z.compare_spec elo e), (Z.compare_spec e ehi); try discriminate; intros _ _;
    exists m, e; (split; [reflexivity|]);
    (split; [|lia]); (split; [assumption|]); apply bounded_spec in V; lia.
Qed.

Lemma eqb_zero (q : number) :
  PrimFloat.eqb q 0 = true -> exists s, Prim2SF q = S754_zero s.
Proof.
  rewrite FloatAxioms.eqb_spec. change (Prim2SF 0) with (S754_zero false).
  destruct (Prim2SF q) as [s|[]| |[] m e]; try discriminate. eauto.
Qed.

Lemma in_range_cases (q : number) :
  in_range q = true ->
  (exists s, Prim2SF q = S754_zero s) \/
  exists m e, Prim2SF q = S754_finite false m e /\ normal m e /\ (-1049 <= e <= 944)%Z.
Proof.
  unfold in_range. intros H. apply orb_true_iff in H. destruct H as [H|H].
  - left. now apply eqb_zero.
  - right. apply andb_true_iff in H. destruct H as [H1 H2].
    apply (between_normal q 1e-300 1e300 6032057205060441 6724873095247260);
      try assumption; reflexivity.
Qed.

Lemma Prim2SF_convert_zero (q : number) (u v : Inventory.unit) (s : bool) :
  Prim2SF q = S754_zero s -> Prim2SF (Inventory.convert q u v) = S754_zero s.
Proof.
  intros H. rewrite Prim2SF_convert, H.
  destruct (toGrams_normal u) as (ma & ea & -> & _).
  destruct (toGrams_normal v) as (mb & eb & -> & _).
  cbn. now rewrite !xorb_false_r.
Qed.

(** The factor of the pricing tool for [u] against the ratio of the
    converter's factors, as values. *)
Lemma conversionFactors_value (u : Pricing.unit) :
  exists mf ef ma ea ml el,
    Prim2SF (Pricing.conversionFactors u) = S754_finite false mf ef /\
    Prim2SF (Inventory.toGrams (Examples.unit_of_pricing u)) = S754_finite false ma ea /\
    Prim2SF (Inventory.toGrams Inventory.lb) = S754_finite false ml el /\
    (normal mf ef /\ normal ma ea /\ normal ml el) /\
    ((-61 <= ef <= -52)%Z /\ (-52 <= ea <= -43)%Z /\ (-52 <= el <= -43)%Z) /\
    ((1 - u64) * (Qval ma ea / Qval ml el) <= Qval mf ef <=
     (1 + u64) * (Qval ma ea / Qval ml el))%Q.
Proof.
  destruct u; do 6 eexists;
    (split; [vm_compute; reflexivity|]);
    (split; [vm_compute; reflexivity|]);
    (split; [vm_compute; reflexivity|]);
    (split; [repeat split; vm_compute; reflexivity|]);
    (split; [lia|]);
    split; apply Qle_bool_iff; vm_compute; reflexivity.
Qed.


Lemma ge_not_nan (p c : number) : ge p c = true -> PrimFloat.leb p p = true.
Proof.
  unfold ge. rewrite !leb_spec. unfold SFleb.
  destruct (Prim2SF p) as [s|s| |s m e], (Prim2SF c) as [s'|s'| |s' m' e'];
    cbn; try discriminate; intros _; try destruct s; try reflexivity;
    change (PosDef.Pos.compare_cont Eq) with Pos.compare;
    rewrite Z.compare_refl, Pos.compare_refl; reflexivity.
Qed.

(** A quantity that is at most 0 makes no pounds above a positive
    threshold. *)
Lemma mul_nonpos_not_ge (q f c : number) :
  PrimFloat.leb q 0 = true ->
  (exists m e, Prim2SF f = S754_finite false m e) ->
  (exists m e, Prim2SF c = S754_finite false m e) ->
  ge (q * f) c = false.
Proof.
  intros Hq Hf (mc & ec & Hc). unfold ge. rewrite leb_spec, mul_spec, Hc.
  rewrite leb_spec in Hq. change (Prim2SF 0) with (S754_zero false) in Hq.
  assert (Hx : (exists m e, Prim2SF q = S754_finite true m e) \/
               (exists s, Prim2SF q = S754_zero s) \/ Prim2SF q = S754_infinity true).
  { destruct (Prim2SF q) as [s|[]| |[] m e]; try discriminate; eauto. }
  destruct Hx as [Hx|[(s & Hx)|Hx]].
  - destruct (SFmul_sign (Prim2SF q) (Prim2SF f) true false) as [H|[H|(m & e & H)]];
      auto; rewrite H; reflexivity.
  - destruct (SFmul_sign (Prim2SF q) (Prim2SF f) s false) as [H|[H|(m & e & H)]];
      auto; rewrite H; try reflexivity; rewrite Hx in H; destruct Hf as (mf & ef & Hf);
      rewrite Hf in H; discriminate H.
  - destruct (SFmul_sign (Prim2SF q) (Prim2SF f) true false) as [H|[H|(m & e & H)]];
      auto; rewrite H; reflexivity.
Qed.

Lemma conversionFactors_positive (u : Pricing.unit) :
  exists m e, Prim2SF (Pricing.conversionFactors u) = S754_finite false m e.
Proof. destruct u; do 2 eexists; vm_compute; reflexivity. Qed.

End Number.


(** ** The claims *)

Module Claims.

Import Rounding Tolerance Order Binary64 Values Number Examples.

(** C1 fails as stated. A call with the base price -5 is not rejected:
    it returns a record, with the unit price -5.00 and the total -50.00. *)
Lemma priceBulk_negative_price_returns :
  PrimFloat.leb (Pricing.basePrice negative_price) 0 = true /\
  Pricing.execute negative_price =
    Returns
      {| Pricing.originalPrice := -5;
         Pricing.discountedPrice := "-5.00";
         Pricing.discountRate := "0%";
         Pricing.tier := "Standard Pricing";
         Pricing.totalSavings := "0.00";
         Pricing.breakdown :=
           {| Pricing.pounds_text := "10.00";
              Pricing.unitPrice := "-5.00";
              Pricing.totalPrice := "-50.00" |} |} /\
  Pricing.execute negative_price <> Throws InvalidInput.
Proof.
  split; [reflexivity|]. split; [vm_compute; reflexivity|].
  vm_compute. discriminate.
Qed.

(** C1, as the code has it. The calculator validates nothing: every call
    returns a record and none throws; with a quantity that is at most 0
    the record carries the Standard tier and no discount. *)
Theorem priceBulk_never_throws (i : Pricing.input) :
  (exists r, Pricing.execute i = Returns r /\
     (PrimFloat.leb (Pricing.quantity i) 0 = true ->
        Pricing.tier r = "Standard Pricing" /\ Pricing.discountRate r = "0%" /\
        Pricing.discountedPrice r = toFixed (Pricing.basePrice i * (1 - 0 / 100)) 2)) /\
  forall e, Pricing.execute i <> Throws e.
Proof.
  unfold Pricing.execute. split.
  - destruct (Pricing.resolveTier _) as [rate label] eqn:E. eexists. split; [reflexivity|].
    intros Hq. cbn [Pricing.tier Pricing.discountRate Pricing.discountedPrice].
    unfold Pricing.resolveTier, Pricing.pounds in E.
    rewrite !(mul_nonpos_not_ge _ _ _ Hq (conversionFactors_positive _)) in E
      by (do 2 eexists; vm_compute; reflexivity).
    injection E as <- <-. repeat split; reflexivity.
  - intros e. destruct (Pricing.resolveTier _). discriminate.
Qed.

Lemma priceBulk_never_throws_witness :
  PrimFloat.leb (Pricing.quantity negative_quantity) 0 = true /\
  exists r, Pricing.execute negative_quantity = Returns r /\
    Pricing.tier r = "Standard Pricing".
Proof.
  split; [reflexivity|].
  destruct (proj1 (priceBulk_never_throws negative_quantity)) as (r & E & H).
  exists r. split; [exact E|]. exact (proj1 (H eq_refl)).
Defined.

(** C2. The record of the calculator holds the discounted unit price
    [basePrice * (1 - discountRate / 100)], the total price, which is the
    discounted price times the quantity in its own unit, and the savings
    [(basePrice - discountedPrice) * quantity], each with two decimals;
    45.00 for 50 lb gives 50.00 lb, Master (50lbs+), 10%, 40.50, 2025.00
    and 225.00, and the same 50 lb given as 800 oz are multiplied as 800:
    32400.00. *)
Theorem priceBulk_formulas :
  (forall i : Pricing.input,
     let pounds := Pricing.pounds (Pricing.quantity i) (Pricing.unit_of i) in
     let discountRate := fst (Pricing.resolveTier pounds) in
     let discountedPrice := Pricing.basePrice i * (1 - discountRate / 100) in
     Pricing.execute i =
       Returns
         {| Pricing.originalPrice := Pricing.basePrice i;
            Pricing.discountedPrice := toFixed discountedPrice 2;
            Pricing.discountRate := toString discountRate ++ "%";
            Pricing.tier := snd (Pricing.resolveTier pounds);
            Pricing.totalSavings :=
              toFixed ((Pricing.basePrice i - discountedPrice) * Pricing.quantity i) 2;
            Pricing.breakdown :=
              {| Pricing.pounds_text := toFixed pounds 2;
                 Pricing.unitPrice := toFixed discountedPrice 2;
                 Pricing.totalPrice := toFixed (discountedPrice * Pricing.quantity i) 2 |} |}) /\
  Pricing.resolveTier (Pricing.pounds 50 Pricing.lb) = (10, "Master (50lbs+)") /\
  Pricing.execute scenario =
    Returns
      {| Pricing.originalPrice := 45;
         Pricing.discountedPrice := "40.50";
         Pricing.discountRate := "10%";
         Pricing.tier := "Master (50lbs+)";
         Pricing.totalSavings := "225.00";
         Pricing.breakdown :=
           {| Pricing.pounds_text := "50.00";
              Pricing.unitPrice := "40.50";
              Pricing.totalPrice := "2025.00" |} |} /\
  Pricing.execute scenario_in_ounces =
    Returns
      {| Pricing.originalPrice := 45;
         Pricing.discountedPrice := "40.50";
         Pricing.discountRate := "10%";
         Pricing.tier := "Master (50lbs+)";
         Pricing.totalSavings := "3600.00";
         Pricing.breakdown :=
           {| Pricing.pounds_text := "50.00";
              Pricing.unitPrice := "40.50";
              Pricing.totalPrice := "32400.00" |} |}.
Proof.
  split; [|repeat split; vm_compute; reflexivity].
  intros i. unfold Pricing.execute.
  destruct (Pricing.resolveTier _) as [rate label]. reflexivity.
Qed.

(** C3 fails as stated. Three grams are 0.0066138732605513333 lb for the
    calculator and 0.0066138732605513324 lb for the converter. *)
Lemma pounds_differ_from_convert :
  ge 3 0 = true /\
  Pricing.pounds 3 Pricing.g = 0.0066138732605513333 /\
  Inventory.convert 3 Inventory.g Inventory.lb = 0.0066138732605513324 /\
  Pricing.pounds 3 Pricing.g <> Inventory.convert 3 Inventory.g Inventory.lb.
Proof.
  repeat split; try reflexivity.
  intros H. apply (f_equal Prim2SF) in H. vm_compute in H. discriminate.
Qed.

(** C3, up to rounding. Each factor of the calculator is the ratio of the
    converter's factors, [factor[U] / factor[pound]], as one binary64
    number, so the two tables are equivalent; the pounds of the
    calculator, [q * (factor[U] / factor[pound])], and those of the
    converter, [(q * factor[U]) / factor[pound]], are rounded differently
    and agree within a relative 1e-15 for a quantity that is 0 or lies
    between 1e-300 and 1e300. *)
Theorem pounds_agree_up_to_rounding (u : Pricing.unit) (q : number) :
  Pricing.conversionFactors u =
    Inventory.toGrams (unit_of_pricing u) / Inventory.toGrams Inventory.lb /\
  (in_range q = true ->
   within_rel (1 # 1000000000000000)
     (Pricing.pounds q u)
     (Inventory.convert q (unit_of_pricing u) Inventory.lb) = true).
Proof.
  split; [destruct u; vm_compute; reflexivity|].
  intros H.
  destruct (conversionFactors_value u)
    as (mf & ef & ma & ea & ml & el & Hf & Ha & Hl & (Nf & Na & Nl) & (Ef & Ea & El) & Bf).
  unfold within_rel, exact_value, Pricing.pounds.
  rewrite Prim2SF_convert, mul_spec, Hf, Ha, Hl.
  destruct (in_range_cases q H) as [(s & Hz)|(mq & eq & Hq & Nq & Eq)].
  - rewrite Hz. cbn. reflexivity.
  - rewrite Hq.
    destruct (SFmul_normal false false mq mf eq ef Nq Nf ltac:(lia))
      as (mp & ep & E1 & Np & Rp & Bp).
    rewrite E1.
    destruct (SFconvert_normal mq ma ml eq ea el) as (mc & ec & E2 & Nc & Rc & Bc);
      try assumption; try lia.
    rewrite E2. cbn [xorb]. apply Qle_bool_iff.
    pose proof (Qval_pos mq eq) as Pq. pose proof (Qval_pos ma ea) as Pa.
    pose proof (Qval_pos ml el) as Pl. pose proof (Qval_pos mc ec) as Pc.
    set (vq := Qval mq eq) in *. set (va := Qval ma ea) in *. set (vl := Qval ml el) in *.
    set (vf := Qval mf ef) in *. set (vp := Qval mp ep) in *. set (vc := Qval mc ec) in *.
    assert (B3 : ((1 - u64) * (va / vl * vq) <= vf * vq <= (1 + u64) * (va / vl * vq))%Q)
      by (apply Qmult_between; assumption).
    assert (Hx : (va / vl * vq == vq * va / vl)%Q) by (field; lra).
    assert (Hy : (vf * vq == vq * vf)%Q) by ring.
    rewrite Hx, Hy in B3.
    assert (0 < vq * va / vl)%Q.
    { apply Qmult_lt_0_compat; [apply Qmult_lt_0_compat; assumption|].
      now apply Qinv_lt_0_compat. }
    rewrite Qabs_Qle_condition, (Qabs_pos (1 * vc)) by lra.
    unfold u64 in *. split; lra.
Qed.

Lemma pounds_agree_up_to_rounding_witness :
  in_range 3 = true /\
  within_rel (1 # 1000000000000000)
    (Pricing.pounds 3 Pricing.g) (Inventory.convert 3 Inventory.g Inventory.lb) = true.
Proof.
  split; [reflexivity|].
  exact (proj2 (pounds_agree_up_to_rounding Pricing.g 3) eq_refl).
Defined.

(** Closes a goal whose hypotheses place [p] in two different bands. *)
Ltac band_clash :=
  repeat match goal with
    | H : (_ && _) = true |- _ => apply andb_true_iff in H; destruct H
    end;
  try congruence;
  match goal with
  | L : PrimFloat.ltb ?p ?h = true |- _ =>
      first
        [ pose proof (lt_ge_false p h L); congruence
        | match goal with
          | G : ge p ?c = true |- _ =>
              let X := fresh in
              pose proof (ge_lt_trans c p h G L) as X; vm_compute in X; discriminate X
          end ]
  end.

(** C4. The tiers are tried from the highest threshold down and the first
    match wins: 25 lb is Distro at 5%, 24.999 lb is Standard at 0%, 50 lb
    is Master at 10% and 100 lb is Master 2 at 15%; the chain of the
    converter gives the same discounts; for every pound quantity that is
    at least 0 the result is the first match of the table, and it is the
    one tier whose band holds the quantity. *)
Theorem resolveTier_first_match :
  Pricing.resolveTier 25 = (5, "Distro (25lbs+)") /\
  Pricing.resolveTier 24.999 = (0, "Standard Pricing") /\
  Pricing.resolveTier 50 = (10, "Master (50lbs+)") /\
  Pricing.resolveTier 100 = (15, "Master 2 (100lbs+)") /\
  (forall p, Inventory.bulkDiscount true Inventory.lb p = fst (Pricing.resolveTier p)) /\
  forall p, ge p 0 = true ->
    Spec.first_match p = Some (Pricing.resolveTier p) /\
    exists b, In b (Spec.bands None Spec.tiers) /\ Spec.in_band p b = true /\
      snd b = Pricing.resolveTier p /\
      forall b', In b' (Spec.bands None Spec.tiers) -> Spec.in_band p b' = true -> b' = b.
Proof.
  repeat (split; [reflexivity|]).
  split.
  { intros p. unfold Inventory.bulkDiscount, Pricing.resolveTier. cbn [andb Inventory.unit_eqb].
    destruct (ge p 100), (ge p 50), (ge p 25); reflexivity. }
  intros p Hp. pose proof (ge_not_nan p 0 Hp) as Hn.
  unfold Pricing.resolveTier, Spec.first_match, Spec.tiers.
  cbn [find fst snd option_map Spec.bands].
  destruct (ge p 100) eqn:E1; [|destruct (ge p 50) eqn:E2; [|destruct (ge p 25) eqn:E3]];
    rewrite ?Hp; (split; [reflexivity|]).
  - exists (100, None, (15, "Master 2 (100lbs+)")).
    split; [cbn; tauto|]. split; [cbn [Spec.in_band]; now rewrite E1|]. split; [reflexivity|].
    intros b' [<-|[<-|[<-|[<-|[]]]]]; cbn [Spec.in_band]; intros Hb;
      try reflexivity; exfalso; band_clash.
  - pose proof (ge_false_lt p 100 Hn eq_refl E1) as L1.
    exists (50, Some 100, (10, "Master (50lbs+)")).
    split; [cbn; tauto|]. split; [cbn [Spec.in_band]; now rewrite E2, L1|]. split; [reflexivity|].
    intros b' [<-|[<-|[<-|[<-|[]]]]]; cbn [Spec.in_band]; intros Hb;
      try reflexivity; exfalso; band_clash.
  - pose proof (ge_false_lt p 50 Hn eq_refl E2) as L2.
    exists (25, Some 50, (5, "Distro (25lbs+)")).
    split; [cbn; tauto|]. split; [cbn [Spec.in_band]; now rewrite E3, L2|]. split; [reflexivity|].
    intros b' [<-|[<-|[<-|[<-|[]]]]]; cbn [Spec.in_band]; intros Hb;
      try reflexivity; exfalso; band_clash.
  - pose proof (ge_false_lt p 25 Hn eq_refl E3) as L3.
    exists (0, Some 25, (0, "Standard Pricing")).
    split; [cbn; tauto|]. split; [cbn [Spec.in_band]; now rewrite Hp, L3|]. split; [reflexivity|].
    intros b' [<-|[<-|[<-|[<-|[]]]]]; cbn [Spec.in_band]; intros Hb;
      try reflexivity; exfalso; band_clash.
Qed.

Lemma resolveTier_first_match_witness :
  ge 30 0 = true /\ Spec.first_match 30 = Some (Pricing.resolveTier 30).
Proof.
  split; [reflexivity|].
  exact (proj1 (proj2 (proj2 (proj2 (proj2 (proj2 resolveTier_first_match)))) 30 eq_refl)).
Defined.

(** C5 fails as stated. The remainder reported for 27.996 g is 28.00. *)
Lemma breakdown_remaining_reaches_28 :
  ge 27.996 0 = true /\
  Inventory.remaining (Inventory.breakdown 27.996) = "28.00".
Proof. split; vm_compute; reflexivity. Qed.

(** C5, with the remainder as it is printed. For a finite quantity that is
    at least 0, each count is the floor of the quantity divided by the
    size of its sub-unit, taken on the quantity itself; it is a whole
    number and at least 0; the remainder is the quantity modulo 28, which
    lies in [0, 28), written with two decimals, which lie between 0.00 and
    28.00; the tool gives this breakdown when it converts grams to grams;
    700 gives 25 ounces, 50 half-ounces, 100 quarters, 200 eighths and the
    remainder 0.00. *)
Theorem breakdown_counts_and_remainder :
  (forall q : number,
     ge q 0 = true -> PrimFloat.ltb q infinity = true ->
     let b := Inventory.breakdown q in
     (Inventory.eighths b = Math_floor (q / 3.5) /\
      Inventory.quarters b = Math_floor (q / 7) /\
      Inventory.halfOunces b = Math_floor (q / 14) /\
      Inventory.ounces b = Math_floor (q / 28)) /\
     (ge (Inventory.eighths b) 0 = true /\
      ge (Inventory.quarters b) 0 = true /\
      ge (Inventory.halfOunces b) 0 = true /\
      ge (Inventory.ounces b) 0 = true) /\
     (Math_floor (Inventory.eighths b) = Inventory.eighths b /\
      Math_floor (Inventory.quarters b) = Inventory.quarters b /\
      Math_floor (Inventory.halfOunces b) = Inventory.halfOunces b /\
      Math_floor (Inventory.ounces b) = Inventory.ounces b) /\
     Inventory.remaining b = toFixed (rem q 28) 2 /\
     (ge (rem q 28) 0 = true /\ PrimFloat.ltb (rem q 28) 28 = true) /\
     exists n, (0 <= n <= 2800)%Z /\ Inventory.remaining b = fixed_digits 2 n) /\
  (forall (q : number) (flag : bool),
     exists r,
       Inventory.execute
         {| Inventory.fromWeight := q; Inventory.fromUnit := Inventory.g;
            Inventory.toUnit := Inventory.g; Inventory.bulkPricing := flag |} = Returns r /\
       Inventory.breakdown_of r = Inventory.breakdown q) /\
  Inventory.breakdown 700 =
    {| Inventory.eighths := 200;
       Inventory.quarters := 100;
       Inventory.halfOunces := 50;
       Inventory.ounces := 25;
       Inventory.remaining := "0.00" |}.
Proof.
  split; [|split; [|vm_compute; reflexivity]].
  2:{ intros q flag. eexists. split; [reflexivity|]. cbn [Inventory.breakdown_of].
      unfold Inventory.convert. cbn [Inventory.toGrams Inventory.fromWeight Inventory.fromUnit Inventory.toUnit].
      now rewrite mul_one_r, div_one_r. }
  intros q Hq Hf b. subst b. cbn [Inventory.breakdown Inventory.eighths Inventory.quarters
    Inventory.halfOunces Inventory.ounces Inventory.remaining].
  split; [repeat split|]. split.
  { repeat split; apply Math_floor_nonneg, div_nonneg; try assumption;
      do 2 eexists; vm_compute; reflexivity. }
  split; [repeat split; apply Math_floor_idem|].
  split; [reflexivity|]. split.
  { apply rem_range; try assumption. do 2 eexists; vm_compute; reflexivity. }
  now apply toFixed_rem_28.
Qed.

Lemma breakdown_counts_and_remainder_witness :
  ge (rem 27.996 28) 0 = true /\ PrimFloat.ltb (rem 27.996 28) 28 = true.
Proof.
  exact (proj1 (proj2 (proj2 (proj2 (proj2
           (proj1 breakdown_counts_and_remainder 27.996 eq_refl eq_refl)))))).
Defined.

(** C6 fails as stated. 1e308 kg is [Infinity] in grams, and still
    [Infinity] when converted back to kilograms, which is not within
    1e-9 of 1e308; 5e-324 g is 0 kg, and 0 g when converted back. *)
Lemma roundtrip_overflows :
  ge 1e308 0 = true /\
  Inventory.convert (Inventory.convert 1e308 Inventory.kg Inventory.g) Inventory.g Inventory.kg
    = infinity /\
  within_rel (1 # 1000000000)
    (Inventory.convert (Inventory.convert 1e308 Inventory.kg Inventory.g) Inventory.g Inventory.kg)
    1e308 = false /\
  Inventory.convert (Inventory.convert 5e-324 Inventory.g Inventory.kg) Inventory.kg Inventory.g
    = 0.
Proof. repeat split; vm_compute; reflexivity. Qed.

(** C6, away from overflow and underflow. For all units U and V, a
    quantity that is 0 or lies between 1e-300 and 1e300 is recovered
    within the relative tolerance 1e-9 when it is converted from U to V
    and back. *)
Theorem convert_roundtrip (u v : Inventory.unit) (q : number) :
  in_range q = true ->
  within_rel (1 # 1000000000)
    (Inventory.convert (Inventory.convert q u v) v u) q = true.
Proof.
  intros H. destruct (in_range_cases q H) as [(s & Hz)|(mq & eq & Hq & Nq & Eq)].
  - unfold within_rel, exact_value.
    rewrite (Prim2SF_convert_zero _ v u s (Prim2SF_convert_zero q u v s Hz)), Hz.
    reflexivity.
  - destruct (toGrams_normal u) as (ma & ea & Ha & Na & Ea).
    destruct (toGrams_normal v) as (mb & eb & Hb & Nb & Eb).
    unfold within_rel, exact_value.
    rewrite !Prim2SF_convert, Hq, Ha, Hb.
    destruct (SFconvert_normal mq ma mb eq ea eb) as (m1 & e1 & E1 & N1 & R1 & B1);
      try assumption; try lia.
    rewrite E1.
    destruct (SFconvert_normal m1 mb ma e1 eb ea) as (m2 & e2 & E2 & N2 & R2 & B2);
      try assumption; try lia.
    rewrite E2. apply Qle_bool_iff.
    pose proof (Qval_pos mq eq) as Pq. pose proof (Qval_pos ma ea) as Pa.
    pose proof (Qval_pos mb eb) as Pb.
    set (vq := Qval mq eq) in *. set (va := Qval ma ea) in *. set (vb := Qval mb eb) in *.
    set (v1 := Qval m1 e1) in *. set (v2 := Qval m2 e2) in *.
    assert (B3 : ((1 - u64) * (1 - u64) * (vq * va / vb * vb / va) <= v1 * vb / va <=
                  (1 + u64) * (1 + u64) * (vq * va / vb * vb / va))%Q).
    { apply Qdiv_between; [assumption|]. apply Qmult_between; assumption. }
    assert (Hx : (vq * va / vb * vb / va == vq)%Q) by (field; split; lra).
    rewrite Hx in B3.
    rewrite Qabs_Qle_condition, (Qabs_pos (1 * vq)) by lra.
    unfold u64 in *. split; lra.
Qed.

Lemma convert_roundtrip_witness :
  in_range 25 = true /\
  within_rel (1 # 1000000000)
    (Inventory.convert (Inventory.convert 25 Inventory.lb Inventory.g) Inventory.g Inventory.lb)
    25 = true.
Proof.
  split; [reflexivity|].
  exact (convert_roundtrip Inventory.lb Inventory.g 25 eq_refl).
Defined.

(** C7. The discount is monotone: of two pound quantities, the smaller
    one never gets the larger discount. *)
Theorem resolveTier_monotone (p1 p2 : number) :
  PrimFloat.ltb p1 p2 = true ->
  PrimFloat.leb (fst (Pricing.resolveTier p1)) (fst (Pricing.resolveTier p2)) = true.
Proof.
  intros H. unfold Pricing.resolveTier.
  destruct (ge p1 100) eqn:E1.
  { rewrite (ge_lt_trans 100 p1 p2 E1 H). reflexivity. }
  destruct (ge p1 50) eqn:E2.
  { rewrite (ge_lt_trans 50 p1 p2 E2 H). destruct (ge p2 100); reflexivity. }
  destruct (ge p1 25) eqn:E3.
  { rewrite (ge_lt_trans 25 p1 p2 E3 H). destruct (ge p2 100), (ge p2 50); reflexivity. }
  destruct (ge p2 100), (ge p2 50), (ge p2 25); reflexivity.
Qed.

Lemma resolveTier_monotone_witness :
  PrimFloat.ltb 24.999 25 = true /\
  PrimFloat.leb (fst (Pricing.resolveTier 24.999)) (fst (Pricing.resolveTier 25)) = true.
Proof. split; [reflexivity|apply resolveTier_monotone; reflexivity]. Defined.

(** C8 fails as stated. Three ounces converted to ounces are
    2.9999999999999996 ounces. *)
Lemma convert_identity_ounce_inexact :
  ge 3 0 = true /\
  Inventory.convert 3 Inventory.oz Inventory.oz = 2.9999999999999996 /\
  Inventory.convert 3 Inventory.oz Inventory.oz <> 3.
Proof.
  split; [reflexivity|]. split; [reflexivity|].
  intros H. apply (f_equal Prim2SF) in H. vm_compute in H. discriminate.
Qed.

(** C8, up to rounding. Converting grams to grams returns the quantity itself,
    for every quantity; for every unit, a quantity that is 0 or lies
    between 1e-300 and 1e300 is recovered within a relative 1e-15 when it
    is converted to its own unit: the product by the factor is rounded
    before the division. *)
Theorem convert_identity_up_to_rounding (u : Inventory.unit) (q : number) :
  Inventory.convert q Inventory.g Inventory.g = q /\
  (in_range q = true ->
   within_rel (1 # 1000000000000000) (Inventory.convert q u u) q = true).
Proof.
  split.
  { unfold Inventory.convert. cbn [Inventory.toGrams].
    now rewrite mul_one_r, div_one_r. }
  intros H. destruct (in_range_cases q H) as [(s & Hz)|(mq & eq & Hq & Nq & Eq)].
  - unfold within_rel, exact_value.
    rewrite (Prim2SF_convert_zero q u u s Hz), Hz. reflexivity.
  - destruct (toGrams_normal u) as (ma & ea & Ha & Na & Ea).
    unfold within_rel, exact_value.
    rewrite !Prim2SF_convert, Hq, Ha.
    destruct (SFconvert_normal mq ma ma eq ea ea) as (m1 & e1 & E1 & N1 & R1 & B1);
      try assumption; try lia.
    rewrite E1. apply Qle_bool_iff.
    pose proof (Qval_pos mq eq) as Pq. pose proof (Qval_pos ma ea) as Pa.
    set (vq := Qval mq eq) in *. set (va := Qval ma ea) in *. set (v1 := Qval m1 e1) in *.
    assert (Hx : (vq * va / va == vq)%Q) by (field; lra).
    rewrite Hx in B1.
    rewrite Qabs_Qle_condition, (Qabs_pos (1 * vq)) by lra.
    unfold u64 in *. split; lra.
Qed.

Lemma convert_identity_up_to_rounding_witness :
  in_range 3 = true /\
  within_rel (1 # 1000000000000000) (Inventory.convert 3 Inventory.oz Inventory.oz) 3 = true.
Proof.
  split; [reflexivity|].
  exact (proj2 (convert_identity_up_to_rounding Inventory.oz 3) eq_refl).
Defined.

(** C9. The breakdown is computed on the converted result, in the target
    unit: it is the breakdown of the gram value when the target unit is
    the gram, and 25 lb give 3 eighths when converted to kilograms
    (11.3398 kg) and 3239 eighths when converted to grams. *)
Theorem breakdown_of_converted_result :
  (forall i : Inventory.input,
     exists r, Inventory.execute i = Returns r /\
       Inventory.breakdown_of r =
         Inventory.breakdown
           (Inventory.convert (Inventory.fromWeight i) (Inventory.fromUnit i) (Inventory.toUnit i))) /\
  (forall i : Inventory.input,
     Inventory.toUnit i = Inventory.g ->
     exists r, Inventory.execute i = Returns r /\
       Inventory.breakdown_of r =
         Inventory.breakdown (Inventory.fromWeight i * Inventory.toGrams (Inventory.fromUnit i))) /\
  toFixed (Inventory.convert 25 Inventory.lb Inventory.kg) 4 = "11.3398" /\
  toFixed (Inventory.convert 25 Inventory.lb Inventory.g) 1 = "11339.8" /\
  (exists r, Inventory.execute (pounds_to Inventory.kg) = Returns r /\
     Inventory.eighths (Inventory.breakdown_of r) = 3 /\
     Inventory.eighths (Inventory.breakdown_of r) = Math_floor (11.339799999999999 / 3.5)) /\
  (exists r, Inventory.execute (pounds_to Inventory.g) = Returns r /\
     Inventory.eighths (Inventory.breakdown_of r) = 3239 /\
     Inventory.eighths (Inventory.breakdown_of r) = Math_floor (11339.799999999999 / 3.5)).
Proof.
  split; [|split].
  - intros i. eexists. split; reflexivity.
  - intros i Hg. eexists. split; [reflexivity|]. cbn [Inventory.breakdown_of].
    unfold Inventory.convert. rewrite Hg. cbn [Inventory.toGrams].
    now rewrite div_one_r.
  - repeat split; try (vm_compute; reflexivity);
      eexists; (split; [reflexivity|]); split; vm_compute; reflexivity.
Qed.

Lemma breakdown_of_converted_result_witness :
  exists r, Inventory.execute (pounds_to Inventory.g) = Returns r /\
    Inventory.breakdown_of r =
      Inventory.breakdown (25 * Inventory.toGrams Inventory.lb).
Proof. exact (proj1 (proj2 breakdown_of_converted_result) (pounds_to Inventory.g) eq_refl). Defined.

(** C10. The reported bulk discount is "None" unless the flag is set and
    the target unit is the pound; then it follows the thresholds 100, 50
    and 25 on the converted pounds. *)
Theorem bulkDiscount_only_for_pounds (i : Inventory.input) :
  exists r, Inventory.execute i = Returns r /\
    (Inventory.bulkDiscount_text r <> "None" ->
       Inventory.bulkPricing i = true /\ Inventory.toUnit i = Inventory.lb) /\
    (Inventory.bulkPricing i = false \/ Inventory.toUnit i <> Inventory.lb ->
       Inventory.bulkDiscount_text r = "None") /\
    (Inventory.bulkPricing i = true -> Inventory.toUnit i = Inventory.lb ->
       let pounds := Inventory.convert (Inventory.fromWeight i) (Inventory.fromUnit i) Inventory.lb in
       Inventory.bulkDiscount_text r =
         if ge pounds 100 then "15%"
         else if ge pounds 50 then "10%"
         else if ge pounds 25 then "5%"
         else "None").
Proof.
  eexists. split; [reflexivity|]. cbn [Inventory.bulkDiscount_text].
  unfold Inventory.bulkDiscount.
  destruct i as [w from to flag]. cbn [Inventory.toUnit Inventory.bulkPricing Inventory.fromWeight Inventory.fromUnit].
  destruct flag, to; cbn [andb Inventory.unit_eqb]; (split; [|split]);
    try (intros H; first [split; reflexivity | exfalso; apply H; reflexivity]);
    try (intros [H|H]; first [reflexivity | discriminate H | exfalso; apply H; reflexivity]);
    try (intros Hf Hu; first [discriminate Hf | discriminate Hu | idtac]).
  cbv zeta.
  destruct (ge _ 100); [reflexivity|].
  destruct (ge _ 50); [reflexivity|].
  destruct (ge _ 25); reflexivity.
Qed.

Lemma bulkDiscount_only_for_pounds_witness :
  exists r, Inventory.execute (pounds_to Inventory.lb) = Returns r /\
    Inventory.bulkDiscount_text r = "5%".
Proof.
  destruct (bulkDiscount_only_for_pounds (pounds_to Inventory.lb)) as (r & E & _ & _ & H).
  exists r. split; [exact E|]. exact (H eq_refl eq_refl).
Defined.

End Claims.


(** ** Sums and comparisons of numbers by their values *)

Module Sums.

Import Rounding Tolerance Order Binary64 Values Number.
Local Open Scope Z_scope.

(** *** Sums of numbers of one sign *)

Lemma shl_align_fst (m : positive) (e e' : Z) :
  e' <= e -> Zpos (fst (shl_align m e e')) = Zpos m * 2 ^ (e - e').
Proof.
  intros H. unfold shl_align. destruct (e' - e) as [|d|d] eqn:E; cbn [fst]; try lia.
  - replace (e - e') with 0 by lia. lia.
  - rewrite pos_iter_xO. f_equal. f_equal. lia.
Qed.

Lemma cond_Zopp_add (s : bool) (a b : Z) :
  cond_Zopp s a + cond_Zopp s b = cond_Zopp s (a + b).
Proof. destruct s; cbn [cond_Zopp]; lia. Qed.

(** The sum of two normal numbers of one sign, away from overflow. *)
Lemma SFadd_normal (s : bool) (mx my : positive) (ex ey : Z) :
  normal mx ex -> normal my ey -> Z.max ex ey <= 969 ->
  exists mz ez,
    SF64add (S754_finite s mx ex) (S754_finite s my ey) = S754_finite s mz ez /\
    normal mz ez /\ (Z.max ex ey <= ez <= Z.max ex ey + 2) /\
    ((1 - u64) * (Qval mx ex + Qval my ey) <= Qval mz ez <=
     (1 + u64) * (Qval mx ex + Qval my ey))%Q.
Proof.
  intros Hx Hy He. cbn [SF64add SFadd].
  pose proof (normal_mantissa mx ex Hx) as Bx. pose proof (normal_mantissa my ey Hy) as By.
  destruct Hx as [Hbx Hdx], Hy as [Hby Hdy].
  pose proof (bounded_lt_2p53 mx ex Hbx) as [_ Rx].
  pose proof (bounded_lt_2p53 my ey Hby) as [_ Ry].
  set (ez := Z.min ex ey).
  rewrite !shl_align_fst by (unfold ez; lia).
  rewrite cond_Zopp_add.
  set (M := Zpos mx * 2 ^ (ex - ez) + Zpos my * 2 ^ (ey - ez)).
  assert (H2x : 1 <= 2 ^ (ex - ez)) by (apply (Z.pow_le_mono_r 2 0); unfold ez; lia).
  assert (H2y : 1 <= 2 ^ (ey - ez)) by (apply (Z.pow_le_mono_r 2 0); unfold ez; lia).
  set (k := Z.max ex ey - ez).
  assert (Hk : 0 <= k) by (unfold k, ez; lia).
  assert (H2k : 1 <= 2 ^ k) by (apply (Z.pow_le_mono_r 2 0); lia).
  assert (Hkx : 2 ^ (ex - ez) <= 2 ^ k) by (apply Z.pow_le_mono_r; unfold k, ez; lia).
  assert (Hky : 2 ^ (ey - ez) <= 2 ^ k) by (apply Z.pow_le_mono_r; unfold k, ez; lia).
  assert (Hone : 2 ^ (ex - ez) = 2 ^ k \/ 2 ^ (ey - ez) = 2 ^ k).
  { unfold k, ez. destruct (Z.leb_spec ex ey); [right|left]; f_equal; lia. }
  assert (HM : 2 ^ 52 * 2 ^ k < M < 2 ^ 54 * 2 ^ k).
  { unfold M. change (2 ^ 54) with (2 ^ 53 + 2 ^ 53). split; destruct Hone; nia. }
  assert (HMpos : 0 < M) by lia.
  destruct M as [|pM|pM] eqn:EM; try lia.
  assert (Hd : Zpos (digits2_pos pM) = 53 + k \/ Zpos (digits2_pos pM) = 54 + k).
  { destruct (Z.ltb_spec (Zpos pM) (2 ^ 53 * 2 ^ k)).
    - left. apply digits2_unique. replace (53 + k - 1) with (52 + k) by lia.
      rewrite !Z.pow_add_r by lia. lia.
    - right. apply digits2_unique. replace (54 + k - 1) with (53 + k) by lia.
      rewrite !Z.pow_add_r by lia. lia. }
  assert (Hcz : cond_Zopp s (Zpos pM) = if s then Zneg pM else Zpos pM) by (destruct s; reflexivity).
  rewrite Hcz.
  assert (Hbn : binary_normalize prec emax (if s then Zneg pM else Zpos pM) ez false
                = binary_round prec emax s pM ez) by (destruct s; reflexivity).
  rewrite Hbn. unfold binary_round. rewrite fexp_eq.
  assert (Hsh : shl_align pM ez (Z.max (Zpos (digits2_pos pM) + ez - 53) (-1074)) = (pM, ez)).
  { unfold shl_align.
    destruct (Z.max (Zpos (digits2_pos pM) + ez - 53) (-1074) - ez) eqn:E; try reflexivity.
    unfold ez in *; lia. }
  rewrite Hsh.
  destruct (binary_round_aux_normal s (Zpos pM * 1) 1 (Zpos pM) ez loc_Exact)
    as (mz & ez' & E & Hb & Hdz & Hez & Herr); try lia.
  { apply locates_exact; lia. }
  { cbn [Zdigits2]. lia. }
  { cbn [Zdigits2]. unfold ez in *. lia. }
  { cbn [Zdigits2]. unfold k, ez in *. lia. }
  cbn [Zdigits2] in Hez.
  exists mz, ez'. split; [exact E|]. split; [split; assumption|].
  split; [unfold k, ez in *; lia|].
  rewrite (Qval_shift mz ez' ez) by (unfold k, ez in *; lia).
  setoid_replace (Qval mx ex + Qval my ey)%Q
    with (inject_Z (Zpos pM * 1) / inject_Z 1 * 2 ^ ez)%Q.
  - apply scale_bounds; [lia|apply Qpow2_pos|exact Herr].
  - rewrite Z.mul_1_r, <- EM. unfold M.
    rewrite (Qval_shift mx ex ez), (Qval_shift my ey ez) by (unfold ez; lia).
    rewrite inject_Z_plus. field.
Qed.

(** Values order canonical positive numbers. *)
Lemma Qval_scaled (m : positive) (e : Z) :
  -1074 <= e ->
  (Qval m e == inject_Z (Zpos m * 2 ^ (e + 1074)) * 2 ^ (-1074))%Q.
Proof.
  intros H. rewrite (Qval_shift m e (-1074)) by lia.
  replace (e - -1074) with (e + 1074) by lia. reflexivity.
Qed.

Lemma SFltb_of_Qval (m1 m2 : positive) (e1 e2 : Z) :
  bounded prec emax m1 e1 = true -> bounded prec emax m2 e2 = true ->
  (Qval m1 e1 < Qval m2 e2)%Q ->
  SFltb (S754_finite false m1 e1) (S754_finite false m2 e2) = true.
Proof.
  intros H1 H2 Hv. apply SFltb_canonical; try assumption.
  pose proof (bounded_lt_2p53 m1 e1 H1) as [_ R1].
  pose proof (bounded_lt_2p53 m2 e2 H2) as [_ R2].
  rewrite (Qval_scaled m1 e1), (Qval_scaled m2 e2) in Hv by lia.
  apply Qmult_lt_r in Hv; [|apply Qpow2_pos].
  now rewrite <- Zlt_Qlt in Hv.
Qed.

(** The same, for negative numbers. *)
Lemma SFltb_of_Qval_neg (m1 m2 : positive) (e1 e2 : Z) :
  bounded prec emax m1 e1 = true -> bounded prec emax m2 e2 = true ->
  (Qval m1 e1 < Qval m2 e2)%Q ->
  SFltb (S754_finite true m2 e2) (S754_finite true m1 e1) = true.
Proof.
  intros H1 H2 Hv. pose proof (SFltb_of_Qval m1 m2 e1 e2 H1 H2 Hv) as H.
  unfold SFltb, SFcompare in *. change (PosDef.Pos.compare_cont Eq) with Pos.compare in *.
  rewrite (Z.compare_antisym e1 e2), (Pos.compare_antisym m1 m2).
  destruct (e1 ?= e2); cbn in *; try discriminate; try reflexivity.
  destruct (m1 ?= m2)%positive; cbn in *; try discriminate; reflexivity.
Qed.

End Sums.

(** ** Facts on the competitive analysis *)

Module CompetitiveFacts.

Import Rounding Tolerance Order Binary64 Values Number.
Import Sums Competitive.
Local Open Scope Z_scope.

Lemma Qval_const (m : positive) (e : Z) (q : Q) :
  Qeq_bool (Qval m e) q = true -> (Qval m e == q)%Q.
Proof. apply Qeq_bool_eq. Qed.

(** The three competitor prices and their average for a normal price of
    either sign, as magnitudes. *)
Lemma SFmarket (s : bool) (mp : positive) (ep : Z) :
  normal mp ep -> -1049 <= ep <= 944 ->
  exists ma ea mb eb mc ec mv ev,
    SF64mul (S754_finite s mp ep) (Prim2SF 0.95) = S754_finite s ma ea /\
    SF64mul (S754_finite s mp ep) (Prim2SF 1.05) = S754_finite s mb eb /\
    SF64mul (S754_finite s mp ep) (Prim2SF 1.1) = S754_finite s mc ec /\
    SF64div
      (SF64add (SF64add (SF64add (S754_zero false) (S754_finite s ma ea))
                        (S754_finite s mb eb)) (S754_finite s mc ec))
      (Prim2SF 3) = S754_finite s mv ev /\
    (bounded prec emax ma ea = true /\ bounded prec emax mb eb = true /\
     bounded prec emax mc ec = true /\ bounded prec emax mv ev = true) /\
    (Qval ma ea < Qval mp ep /\ Qval mp ep < Qval mb eb /\
     Qval mb eb < Qval mc ec /\ Qval mp ep < Qval mv ev)%Q.
Proof.
  intros Hp He.
  change (Prim2SF 0.95) with (S754_finite false 8556839292003942 (-53)).
  change (Prim2SF 1.05) with (S754_finite false 4728779608739021 (-52)).
  change (Prim2SF 1.1) with (S754_finite false 4953959590107546 (-52)).
  change (Prim2SF 3) with (S754_finite false 6755399441055744 (-51)).
  assert (Na : normal 8556839292003942 (-53)) by (split; vm_compute; reflexivity).
  assert (Nb : normal 4728779608739021 (-52)) by (split; vm_compute; reflexivity).
  assert (Nc : normal 4953959590107546 (-52)) by (split; vm_compute; reflexivity).
  assert (N3 : normal 6755399441055744 (-51)) by (split; vm_compute; reflexivity).
  destruct (SFmul_normal s false mp 8556839292003942 ep (-53) Hp Na ltac:(lia))
    as (ma & ea & Ea & Ha & Ra & Ba).
  destruct (SFmul_normal s false mp 4728779608739021 ep (-52) Hp Nb ltac:(lia))
    as (mb & eb & Eb & Hb & Rb & Bb).
  destruct (SFmul_normal s false mp 4953959590107546 ep (-52) Hp Nc ltac:(lia))
    as (mc & ec & Ec & Hc & Rc & Bc).
  rewrite xorb_false_r in Ea, Eb, Ec.
  destruct (SFadd_normal s ma mb ea eb Ha Hb ltac:(lia))
    as (m2 & e2 & E2 & H2 & R2 & B2).
  destruct (SFadd_normal s m2 mc e2 ec H2 Hc ltac:(lia))
    as (m3 & e3 & E3 & H3 & R3 & B3).
  destruct (SFdiv_normal s false m3 6755399441055744 e3 (-51) H3 N3 ltac:(lia))
    as (mv & ev & Ev & Hv & Rv & Bv).
  rewrite xorb_false_r in Ev.
  exists ma, ea, mb, eb, mc, ec, mv, ev.
  split; [exact Ea|]. split; [exact Eb|]. split; [exact Ec|].
  split.
  { change (SF64add (S754_zero false) (S754_finite s ma ea)) with (S754_finite s ma ea).
    rewrite E2, E3. exact Ev. }
  split; [repeat split; first [apply Ha | apply Hb | apply Hc | apply Hv]|].
  rewrite (Qval_const 8556839292003942 (-53) (8556839292003942 # 9007199254740992) eq_refl)
    in Ba.
  rewrite (Qval_const 4728779608739021 (-52) (4728779608739021 # 4503599627370496) eq_refl)
    in Bb.
  rewrite (Qval_const 4953959590107546 (-52) (4953959590107546 # 4503599627370496) eq_refl)
    in Bc.
  rewrite (Qval_const 6755399441055744 (-51) 3 eq_refl) in Bv.
  pose proof (Qval_pos mp ep) as Pp.
  revert Ba Bb Bc B2 B3 Bv.
  generalize (Qval mp ep) (Qval ma ea) (Qval mb eb) (Qval mc ec) (Qval m2 e2) (Qval m3 e3)
    (Qval mv ev) Pp.
  clear. unfold u64. intros P A B C S2 S3 V Pp Ba Bb Bc B2 B3 Bv.
  unfold Qdiv in Bv. change (/ 3)%Q with (1 # 3)%Q in Bv. repeat split; lra.
Qed.


Lemma SFltb_asym (x y : spec_float) : SFltb x y = true -> SFltb y x = false.
Proof.
  unfold SFltb. rewrite (SFcompare_antisym x y).
  destruct (SFcompare x y) as [[]|]; cbn; congruence.
Qed.

(** A number between [lo] and [hi], two negative normal numbers. *)
Lemma between_normal_neg (q lo hi : number) (mlo mhi : positive) (elo ehi : Z) :
  Prim2SF lo = S754_finite true mlo elo -> Prim2SF hi = S754_finite true mhi ehi ->
  -1074 < ehi ->
  PrimFloat.leb lo q = true -> PrimFloat.leb q hi = true ->
  exists m e, Prim2SF q = S754_finite true m e /\ normal m e /\ ehi <= e <= elo.
Proof.
  intros Hlo Hhi Hel. rewrite !leb_spec, Hlo, Hhi.
  pose proof (Prim2SF_valid q) as V.
  destruct (Prim2SF q) as [s|s| |s m e]; unfold SFleb; cbn [SFcompare];
    try discriminate; try (destruct s; discriminate).
  destruct s; [|discriminate]. cbn [valid_binary] in V.
  destruct (Z.compare_spec elo e), (Z.compare_spec e ehi); try discriminate; intros _ _;
    exists m, e; (split; [reflexivity|]);
    (split; [|lia]); (split; [assumption|]); apply bounded_spec in V; lia.
Qed.

Lemma length_competitors (i : input) : Array_length (competitors i) = 3%float.
Proof. reflexivity. Qed.

Lemma Prim2SF_marketAverage (i : input) :
  Prim2SF (marketAverage i) =
  SF64div
    (SF64add (SF64add (SF64add (S754_zero false)
       (SF64mul (Prim2SF (currentPrice i)) (Prim2SF 0.95)))
       (SF64mul (Prim2SF (currentPrice i)) (Prim2SF 1.05)))
       (SF64mul (Prim2SF (currentPrice i)) (Prim2SF 1.1)))
    (Prim2SF 3).
Proof.
  unfold marketAverage. rewrite length_competitors.
  cbn [competitors fold_left price].
  now rewrite div_spec, !add_spec, !mul_spec.
Qed.


(** Prices, average and comparisons for a normal price of sign [s]. *)
Lemma market_of_normal (i : input) (s : bool) (mp : positive) (ep : Z) :
  Prim2SF (currentPrice i) = S754_finite s mp ep -> normal mp ep -> -1049 <= ep <= 944 ->
  let p := currentPrice i in
  if s then
    PrimFloat.ltb p (p * 0.95) = true /\ PrimFloat.ltb (p * 1.05) p = true /\
    PrimFloat.ltb (p * 1.1) (p * 1.05) = true /\ gt p (marketAverage i) = true
  else
    PrimFloat.ltb (p * 0.95) p = true /\ PrimFloat.ltb p (p * 1.05) = true /\
    PrimFloat.ltb (p * 1.05) (p * 1.1) = true /\ gt p (marketAverage i) = false /\
    PrimFloat.ltb p (marketAverage i) = true.
Proof.
  intros Hp Np Ep p. subst p.
  destruct (SFmarket s mp ep Np Ep)
    as (ma & ea & mb & eb & mc & ec & mv & ev & Ea & Eb & Ec & Ev & (Ba & Bb & Bc & Bv) &
        La & Lb & Lc & Lv).
  assert (Bp : bounded prec emax mp ep = true) by apply Np.
  assert (Hv : Prim2SF (marketAverage i) = S754_finite s mv ev).
  { rewrite Prim2SF_marketAverage. rewrite Hp, Ea, Eb, Ec. exact Ev. }
  unfold gt. rewrite !ltb_spec, !mul_spec, Hv. rewrite Hp, Ea, Eb, Ec.
  destruct s.
  - repeat split; now apply SFltb_of_Qval_neg.
  - repeat split; try (now apply SFltb_of_Qval).
    apply SFltb_asym. now apply SFltb_of_Qval.
Qed.

End CompetitiveFacts.

(** ** Facts on the bulk pricing calculator *)

Module PricingFacts.

Import Rounding Tolerance Order Binary64 Values Number.
Import Sums.
Local Open Scope Z_scope.

Lemma SFleb_trans_const (c c' x : spec_float) :
  SFleb c c' = true -> SFleb c' x = true -> SFleb c x = true.
Proof.
  unfold SFleb.
  destruct c as [sc|sc| |sc mc ec], c' as [sx|sx| |sx mx ex], x as [sy|sy| |sy my ey];
    simpl; try destruct sc; try destruct sx; try destruct sy;
    try discriminate; try reflexivity;
    change (PosDef.Pos.compare_cont Eq) with Pos.compare;
    repeat match goal with
      | |- context [(?a ?= ?b)%Z] => destruct (Z.compare_spec a b)
      | |- context [(?a ?= ?b)%positive] => destruct (Pos.compare_spec a b)
      end; simpl; try discriminate; try reflexivity; intros; lia.
Qed.

Lemma ge_weaken (c c' x : number) :
  PrimFloat.leb c c' = true -> ge x c' = true -> ge x c = true.
Proof. unfold ge. rewrite !leb_spec. apply SFleb_trans_const. Qed.

Lemma SFltb_leb (x y : spec_float) : SFltb x y = true -> SFleb x y = true.
Proof. unfold SFltb, SFleb. destruct (SFcompare x y) as [[]|]; congruence. Qed.

Lemma SFleb_refl_finite (s : bool) (m : positive) (e : Z) :
  SFleb (S754_finite s m e) (S754_finite s m e) = true.
Proof.
  unfold SFleb. cbn [SFcompare].
  change (PosDef.Pos.compare_cont Eq) with Pos.compare.
  destruct s; rewrite Z.compare_refl, Pos.compare_refl; reflexivity.
Qed.

(** A finite number is a zero or [m * 2^e]. *)
Lemma is_finite_cases (x : number) :
  is_finite x = true ->
  (exists s, Prim2SF x = S754_zero s) \/ exists s m e, Prim2SF x = S754_finite s m e.
Proof.
  unfold is_finite, is_nan, is_infinity.
  rewrite !FloatAxioms.eqb_spec, abs_spec.
  change (Prim2SF infinity) with (S754_infinity false).
  destruct (Prim2SF x) as [s|s| |s m e]; intros H.
  - left; eexists; reflexivity.
  - destruct s; discriminate H.
  - discriminate H.
  - right; do 3 eexists; reflexivity.
Qed.

(** [x - x] is [+0] for a finite [x]. *)
Lemma sub_diag (x : number) : is_finite x = true -> Prim2SF (x - x) = S754_zero false.
Proof.
  intros H. rewrite sub_spec.
  destruct (is_finite_cases x H) as [(s & ->)|(s & m & e & ->)].
  - destruct s; reflexivity.
  - cbn [SF64sub SFsub]. rewrite Z.sub_diag. reflexivity.
Qed.

(** [+0 * q] is a zero for a finite [q]. *)
Lemma mul_zero_l (z q : number) :
  Prim2SF z = S754_zero false -> is_finite q = true ->
  exists s, Prim2SF (z * q) = S754_zero s.
Proof.
  intros Hz H. rewrite mul_spec, Hz.
  destruct (is_finite_cases q H) as [(s & ->)|(s & m & e & ->)]; cbn; eauto.
Qed.

(** The product of a normal price with two factors between 1/2 and 2, the
    second one smaller than the first by more than the rounding. *)
Lemma SFmul_factor_lt (s : bool) (mp m1 m2 : positive) (ep e1 e2 : Z) :
  normal mp ep -> -1049 <= ep <= 944 ->
  normal m1 e1 -> normal m2 e2 -> -53 <= e1 <= -52 -> -53 <= e2 <= -52 ->
  ((1 + u64) * Qval m2 e2 < (1 - u64) * Qval m1 e1)%Q ->
  exists a1 b1 a2 b2,
    SF64mul (S754_finite s mp ep) (S754_finite false m1 e1) = S754_finite s a1 b1 /\
    SF64mul (S754_finite s mp ep) (S754_finite false m2 e2) = S754_finite s a2 b2 /\
    bounded prec emax a1 b1 = true /\ bounded prec emax a2 b2 = true /\
    (Qval a2 b2 < Qval a1 b1)%Q.
Proof.
  intros Np Ep N1 N2 E1 E2 H.
  destruct (SFmul_normal s false mp m1 ep e1 Np N1 ltac:(lia)) as (a1 & b1 & Ea & Ha & _ & Ba).
  destruct (SFmul_normal s false mp m2 ep e2 Np N2 ltac:(lia)) as (a2 & b2 & Eb & Hb & _ & Bb).
  rewrite xorb_false_r in Ea, Eb.
  exists a1, b1, a2, b2. repeat split; try assumption; try apply Ha; try apply Hb.
  pose proof (Qval_pos mp ep) as Pp.
  apply (Qmult_lt_l _ _ (Qval mp ep) Pp) in H.
  destruct Ba as [Ba _]. destruct Bb as [_ Bb].
  eapply Qle_lt_trans; [exact Bb|]. eapply Qlt_le_trans; [|exact Ba].
  setoid_replace ((1 + u64) * (Qval mp ep * Qval m2 e2))%Q
    with (Qval mp ep * ((1 + u64) * Qval m2 e2))%Q by ring.
  setoid_replace ((1 - u64) * (Qval mp ep * Qval m1 e1))%Q
    with (Qval mp ep * ((1 - u64) * Qval m1 e1))%Q by ring.
  exact H.
Qed.

End PricingFacts.

(** ** Facts on the converter *)

Module ConverterFacts.

Import Rounding Tolerance Order Binary64 Values Number.
Local Open Scope Z_scope.

(** The sign of the rounded result is the one it is given. *)
Lemma binary_round_aux_opp (s : bool) (mx ex : Z) (lx : location) :
  binary_round_aux prec emax (negb s) mx ex lx =
  SFopp (binary_round_aux prec emax s mx ex lx).
Proof.
  unfold binary_round_aux.
  destruct (shr_fexp prec emax mx ex lx) as [mrs' e'].
  destruct (shr_fexp prec emax _ e' loc_Exact) as [mrs'' e''].
  destruct (shr_m mrs''); try reflexivity.
  destruct (e'' <=? emax - prec); reflexivity.
Qed.

Lemma SFmul_opp_l (x y : spec_float) : SF64mul (SFopp x) y = SFopp (SF64mul x y).
Proof.
  destruct x as [sx|sx| |sx mx ex], y as [sy|sy| |sy my ey]; cbn [SF64mul SFmul SFopp];
    try reflexivity; try (destruct sx, sy; reflexivity).
  rewrite <- binary_round_aux_opp. destruct sx, sy; reflexivity.
Qed.

Lemma SFdiv_opp_l (x y : spec_float) : SF64div (SFopp x) y = SFopp (SF64div x y).
Proof.
  destruct x as [sx|sx| |sx mx ex], y as [sy|sy| |sy my ey]; cbn [SF64div SFdiv SFopp];
    try reflexivity; try (destruct sx, sy; reflexivity).
  destruct (SFdiv_core_binary prec emax (Zpos mx) ex (Zpos my) ey) as [[mz ez] lz].
  rewrite <- binary_round_aux_opp. destruct sx, sy; reflexivity.
Qed.

End ConverterFacts.

(** ** The competitive analysis tool: properties *)

Module CompetitiveTheorems.

Import Rounding Tolerance Order Binary64 Values Number.
Import Sums Competitive CompetitiveFacts.

(** X1. competitive_analysis: for a current price between 1e-300 and 1e300
    the three mock competitors are strictly ordered around it: Competitor A
    below the current price, Competitor B above it and Competitor C above
    Competitor B, as their position labels say. *)
Theorem competitors_ordered (i : input) :
  PrimFloat.leb 1e-300 (currentPrice i) = true ->
  PrimFloat.leb (currentPrice i) 1e300 = true ->
  exists a b c,
    competitors i = [a; b; c] /\
    (name a, position a) = ("Competitor A", "Lower price") /\
    (name b, position b) = ("Competitor B", "Higher price") /\
    (name c, position c) = ("Competitor C", "Premium pricing") /\
    PrimFloat.ltb (price a) (currentPrice i) = true /\
    PrimFloat.ltb (currentPrice i) (price b) = true /\
    PrimFloat.ltb (price b) (price c) = true.
Proof.
  intros H1 H2.
  destruct (between_normal (currentPrice i) 1e-300 1e300 6032057205060441 6724873095247260
              (-1049) 944 eq_refl eq_refl ltac:(lia) H1 H2) as (mp & ep & Hp & Np & Ep).
  destruct (market_of_normal i false mp ep Hp Np Ep) as (A & B & C & _).
  do 3 eexists. split; [reflexivity|]. cbn [name position price].
  repeat split; assumption.
Qed.

Lemma competitors_ordered_witness :
  exists a b c,
    competitors {| productName := "Ice Cream Cake"; currentPrice := 45;
                   tier := "TOP SHELF"; region := "local" |} = [a; b; c] /\
    (name a, position a) = ("Competitor A", "Lower price") /\
    (name b, position b) = ("Competitor B", "Higher price") /\
    (name c, position c) = ("Competitor C", "Premium pricing") /\
    PrimFloat.ltb (price a) 45 = true /\
    PrimFloat.ltb 45 (price b) = true /\
    PrimFloat.ltb (price b) (price c) = true.
Proof.
  apply (competitors_ordered
           {| productName := "Ice Cream Cake"; currentPrice := 45;
              tier := "TOP SHELF"; region := "local" |}); reflexivity.
Defined.

(** X2. competitive_analysis: for every current price between 1e-300 and
    1e300 the market average lies strictly above the current price, so the
    position is "Value" and the first recommendation is "Consider price
    optimization"; such a price is never positioned as "Premium". *)
Theorem positive_price_is_value (i : input) :
  PrimFloat.leb 1e-300 (currentPrice i) = true ->
  PrimFloat.leb (currentPrice i) 1e300 = true ->
  PrimFloat.ltb (currentPrice i) (marketAverage i) = true /\
  exists r, execute i = Returns r /\
    position_out r = "Value" /\
    recommendations r =
      ["Consider price optimization"; "Monitor competitor pricing weekly";
       "Focus on unique value propositions"].
Proof.
  intros H1 H2.
  destruct (between_normal (currentPrice i) 1e-300 1e300 6032057205060441 6724873095247260
              (-1049) 944 eq_refl eq_refl ltac:(lia) H1 H2) as (mp & ep & Hp & Np & Ep).
  destruct (market_of_normal i false mp ep Hp Np Ep) as (_ & _ & _ & G & L).
  split; [exact L|].
  eexists. split; [reflexivity|]. cbn [position_out recommendations].
  unfold position_of. rewrite G, L. split; reflexivity.
Qed.

Lemma positive_price_is_value_witness :
  let i := {| productName := "Ice Cream Cake"; currentPrice := 45;
              tier := "TOP SHELF"; region := "local" |} in
  PrimFloat.ltb 45 (marketAverage i) = true /\
  exists r, execute i = Returns r /\
    position_out r = "Value" /\
    recommendations r =
      ["Consider price optimization"; "Monitor competitor pricing weekly";
       "Focus on unique value propositions"].
Proof.
  apply (positive_price_is_value
           {| productName := "Ice Cream Cake"; currentPrice := 45;
              tier := "TOP SHELF"; region := "local" |}); reflexivity.
Defined.

(** X3. competitive_analysis: the schema accepts a negative price, and for
    every current price between -1e300 and -1e-300 the market average lies
    strictly below it: the position is "Premium" and the first
    recommendation is "Maintain premium positioning with quality focus". *)
Theorem negative_price_is_premium (i : input) :
  PrimFloat.leb (-1e300) (currentPrice i) = true ->
  PrimFloat.leb (currentPrice i) (-1e-300) = true ->
  PrimFloat.ltb (marketAverage i) (currentPrice i) = true /\
  exists r, execute i = Returns r /\
    position_out r = "Premium" /\
    recommendations r =
      ["Maintain premium positioning with quality focus";
       "Monitor competitor pricing weekly"; "Focus on unique value propositions"].
Proof.
  intros H1 H2.
  destruct (between_normal_neg (currentPrice i) (-1e300) (-1e-300)
              6724873095247260 6032057205060441 944 (-1049) eq_refl eq_refl ltac:(lia) H1 H2)
    as (mp & ep & Hp & Np & Ep).
  destruct (market_of_normal i true mp ep Hp Np Ep) as (_ & _ & _ & G).
  split; [exact G|].
  eexists. split; [reflexivity|]. cbn [position_out recommendations].
  unfold position_of. rewrite G. split; reflexivity.
Qed.

Lemma negative_price_is_premium_witness :
  let i := {| productName := "Ice Cream Cake"; currentPrice := -45;
              tier := "TOP SHELF"; region := "local" |} in
  PrimFloat.ltb (marketAverage i) (-45) = true /\
  exists r, execute i = Returns r /\
    position_out r = "Premium" /\
    recommendations r =
      ["Maintain premium positioning with quality focus";
       "Monitor competitor pricing weekly"; "Focus on unique value propositions"].
Proof.
  apply (negative_price_is_premium
           {| productName := "Ice Cream Cake"; currentPrice := -45;
              tier := "TOP SHELF"; region := "local" |}); reflexivity.
Defined.

End CompetitiveTheorems.

Module MoreCompetitive.

Import Rounding Tolerance Order Binary64 Values Number.
Import Competitive CompetitiveFacts PricingFacts.

(** X4. competitive_analysis: for a current price that is 0, NaN or
    infinite, the price is neither above nor below the market average: the
    position is "Market average", with the first recommendation "Consider
    price optimization". *)
Theorem degenerate_price_is_market_average (i : input) :
  PrimFloat.eqb (currentPrice i) 0 = true \/ is_finite (currentPrice i) = false ->
  exists r, execute i = Returns r /\
    position_out r = "Market average" /\
    recommendations r =
      ["Consider price optimization"; "Monitor competitor pricing weekly";
       "Focus on unique value propositions"].
Proof.
  intros H.
  assert (C : (exists s, Prim2SF (currentPrice i) = S754_zero s) \/
              (exists s, Prim2SF (currentPrice i) = S754_infinity s) \/
              Prim2SF (currentPrice i) = S754_nan).
  { destruct H as [H|H]; [left; now apply eqb_zero|].
    unfold is_finite, is_nan, is_infinity in H.
    rewrite !FloatAxioms.eqb_spec, abs_spec in H.
    change (Prim2SF infinity) with (S754_infinity false) in H.
    destruct (Prim2SF (currentPrice i)) as [s|s| |s m e]; eauto.
    exfalso. unfold SFeqb in H. cbn [SFcompare SFabs] in H.
      change (PosDef.Pos.compare_cont Eq) with Pos.compare in H.
      rewrite Z.compare_refl, Pos.compare_refl in H. destruct s; discriminate H. }
  assert (G : gt (currentPrice i) (marketAverage i) = false /\
              PrimFloat.ltb (currentPrice i) (marketAverage i) = false).
  { unfold gt. rewrite !ltb_spec, Prim2SF_marketAverage.
    destruct C as [(s & ->)|[(s & ->)| ->]]; try destruct s; split; reflexivity. }
  destruct G as [G1 G2].
  eexists. split; [reflexivity|]. cbn [position_out recommendations].
  unfold position_of. rewrite G1, G2. split; reflexivity.
Qed.

Lemma degenerate_price_is_market_average_witness :
  exists r,
    execute {| productName := "Ice Cream Cake"; currentPrice := 0;
               tier := "TOP SHELF"; region := "local" |} = Returns r /\
    position_out r = "Market average" /\
    recommendations r =
      ["Consider price optimization"; "Monitor competitor pricing weekly";
       "Focus on unique value propositions"].
Proof.
  apply (degenerate_price_is_market_average
           {| productName := "Ice Cream Cake"; currentPrice := 0;
              tier := "TOP SHELF"; region := "local" |}).
  left. reflexivity.
Defined.

End MoreCompetitive.

(** ** The bulk pricing calculator: further properties *)

Module PricingTheorems.

Import Rounding Tolerance Order Binary64 Values Number.
Import Sums PricingFacts PricingSteps.

Lemma toString_rates :
  toString 15 = "15" /\ toString 10 = "10" /\ toString 5 = "5" /\ toString 0 = "0".
Proof. repeat split; vm_compute; reflexivity. Qed.

Lemma resolveTier_cases (p : number) :
  (ge p 100 = true /\ Pricing.resolveTier p = (15, "Master 2 (100lbs+)")) \/
  (ge p 100 = false /\ ge p 50 = true /\ Pricing.resolveTier p = (10, "Master (50lbs+)")) \/
  (ge p 50 = false /\ ge p 25 = true /\ Pricing.resolveTier p = (5, "Distro (25lbs+)")) \/
  (ge p 25 = false /\ Pricing.resolveTier p = (0, "Standard Pricing")).
Proof.
  unfold Pricing.resolveTier.
  destruct (ge p 100) eqn:H100; [now left|].
  destruct (ge p 50) eqn:H50; [right; left; now repeat split|].
  destruct (ge p 25) eqn:H25; [right; right; left; now repeat split|].
  right; right; right. now split.
Qed.

Lemma execute_steps (i : Pricing.input) :
  let pounds := Pricing.pounds (Pricing.quantity i) (Pricing.unit_of i) in
  Pricing.execute i =
  Returns
    {| Pricing.originalPrice := Pricing.basePrice i;
       Pricing.discountedPrice := toFixed (discountedPrice (Pricing.basePrice i) pounds) 2;
       Pricing.discountRate := toString (fst (Pricing.resolveTier pounds)) ++ "%";
       Pricing.tier := snd (Pricing.resolveTier pounds);
       Pricing.totalSavings :=
         toFixed (totalSavings (Pricing.basePrice i) (Pricing.quantity i) pounds) 2;
       Pricing.breakdown :=
         {| Pricing.pounds_text := toFixed pounds 2;
            Pricing.unitPrice := toFixed (discountedPrice (Pricing.basePrice i) pounds) 2;
            Pricing.totalPrice :=
              toFixed (discountedPrice (Pricing.basePrice i) pounds * Pricing.quantity i) 2 |} |}.
Proof.
  intros pounds. unfold Pricing.execute, totalSavings, discountedPrice. fold pounds.
  destruct (Pricing.resolveTier pounds) as [r t]. reflexivity.
Qed.

(** X5. bulk_pricing_calculator: whatever the input, the result carries one
    of the four pairs of discount rate and tier label of the if/else-if
    chain, and the unit price of the breakdown is the discounted price. *)
Theorem priceBulk_rate_and_label (i : Pricing.input) :
  exists r, Pricing.execute i = Returns r /\
    In (Pricing.discountRate r, Pricing.tier r)
       [("15%", "Master 2 (100lbs+)"); ("10%", "Master (50lbs+)");
        ("5%", "Distro (25lbs+)"); ("0%", "Standard Pricing")] /\
    Pricing.unitPrice (Pricing.breakdown r) = Pricing.discountedPrice r.
Proof.
  eexists. split; [apply execute_steps|].
  cbn [Pricing.discountRate Pricing.tier Pricing.unitPrice Pricing.breakdown
       Pricing.discountedPrice].
  split; [|reflexivity].
  destruct (resolveTier_cases (Pricing.pounds (Pricing.quantity i) (Pricing.unit_of i)))
    as [(_ & ->)|[(_ & _ & ->)|[(_ & _ & ->)|(_ & ->)]]]; cbn [fst snd];
    destruct toString_rates as (T15 & T10 & T5 & T0);
    rewrite ?T15, ?T10, ?T5, ?T0; cbn [append In]; auto 6.
Qed.

(** X6. bulk_pricing_calculator: below 25 pounds (or when the pounds are
    NaN) the tier is "Standard Pricing" at 0%, the discounted unit price is
    the base price itself, exactly, the total is base price times quantity,
    and for a finite base price and a finite quantity the savings are
    "0.00". *)
Theorem standard_tier_keeps_base_price (i : Pricing.input) :
  ge (Pricing.pounds (Pricing.quantity i) (Pricing.unit_of i)) 25 = false ->
  exists r, Pricing.execute i = Returns r /\
    (Pricing.discountRate r, Pricing.tier r) = ("0%", "Standard Pricing") /\
    Pricing.discountedPrice r = toFixed (Pricing.basePrice i) 2 /\
    Pricing.totalPrice (Pricing.breakdown r) =
      toFixed (Pricing.basePrice i * Pricing.quantity i) 2 /\
    (is_finite (Pricing.basePrice i) = true -> is_finite (Pricing.quantity i) = true ->
     Pricing.totalSavings r = "0.00").
Proof.
  intros H25.
  eexists. split; [apply execute_steps|].
  cbn [Pricing.discountRate Pricing.tier Pricing.totalPrice Pricing.breakdown
       Pricing.discountedPrice Pricing.totalSavings].
  unfold totalSavings, discountedPrice.
  destruct (resolveTier_cases (Pricing.pounds (Pricing.quantity i) (Pricing.unit_of i)))
    as [(G & _)|[(_ & G & _)|[(_ & G & _)|(_ & ->)]]].
  - apply (ge_weaken 25 100) in G; [congruence|reflexivity].
  - apply (ge_weaken 25 50) in G; [congruence|reflexivity].
  - congruence.
  - cbn [fst snd]. change (1 - 0 / 100) with 1. rewrite mul_one_r.
    destruct toString_rates as (_ & _ & _ & ->).
    split; [reflexivity|]. split; [reflexivity|]. split; [reflexivity|].
    intros Fp Fq. unfold toFixed.
    destruct (mul_zero_l (Pricing.basePrice i - Pricing.basePrice i) (Pricing.quantity i)
                (sub_diag _ Fp) Fq) as (s & ->).
    reflexivity.
Qed.

Lemma standard_tier_keeps_base_price_witness :
  exists r, Pricing.execute Examples.negative_quantity = Returns r /\
    (Pricing.discountRate r, Pricing.tier r) = ("0%", "Standard Pricing") /\
    Pricing.discountedPrice r = toFixed 45 2 /\
    Pricing.totalPrice (Pricing.breakdown r) = toFixed (45 * -1) 2 /\
    (is_finite 45 = true -> is_finite (-1) = true -> Pricing.totalSavings r = "0.00").
Proof.
  apply (standard_tier_keeps_base_price Examples.negative_quantity). reflexivity.
Defined.

(** The discount factors of the four tiers. *)
Lemma factor_values :
  Prim2SF (1 - 0 / 100) = S754_finite false 4503599627370496 (-52) /\
  Prim2SF (1 - 5 / 100) = S754_finite false 8556839292003942 (-53) /\
  Prim2SF (1 - 10 / 100) = S754_finite false 8106479329266893 (-53) /\
  Prim2SF (1 - 15 / 100) = S754_finite false 7656119366529843 (-53).
Proof. repeat split. Qed.

(** The four discounted prices of a normal base price, in order. *)
Lemma SFdiscounted_chain (mp : positive) (ep : Z) :
  normal mp ep -> (-1049 <= ep <= 944)%Z ->
  let P := S754_finite false mp ep in
  let x0 := SF64mul P (S754_finite false 4503599627370496 (-52)) in
  let x5 := SF64mul P (S754_finite false 8556839292003942 (-53)) in
  let x10 := SF64mul P (S754_finite false 8106479329266893 (-53)) in
  let x15 := SF64mul P (S754_finite false 7656119366529843 (-53)) in
  x0 = P /\
  (SFleb x0 x0 = true /\ SFleb x5 x5 = true /\ SFleb x10 x10 = true /\
   SFleb x15 x15 = true) /\
  (SFltb x5 x0 = true /\ SFltb x10 x5 = true /\ SFltb x15 x10 = true).
Proof.
  intros Np Ep P x0 x5 x10 x15.
  assert (N0 : normal 4503599627370496 (-52)) by (split; vm_compute; reflexivity).
  assert (N5 : normal 8556839292003942 (-53)) by (split; vm_compute; reflexivity).
  assert (N10 : normal 8106479329266893 (-53)) by (split; vm_compute; reflexivity).
  assert (N15 : normal 7656119366529843 (-53)) by (split; vm_compute; reflexivity).
  destruct (SFmul_factor_lt false mp 4503599627370496 8556839292003942 ep (-52) (-53)
              Np Ep N0 N5 ltac:(lia) ltac:(lia) ltac:(apply Qlt_alt; vm_compute; reflexivity))
    as (a0 & b0 & a5 & b5 & E0 & E5 & B0 & B5 & L5).
  destruct (SFmul_factor_lt false mp 8556839292003942 8106479329266893 ep (-53) (-53)
              Np Ep N5 N10 ltac:(lia) ltac:(lia) ltac:(apply Qlt_alt; vm_compute; reflexivity))
    as (a5' & b5' & a10 & b10 & E5' & E10 & _ & B10 & L10).
  destruct (SFmul_factor_lt false mp 8106479329266893 7656119366529843 ep (-53) (-53)
              Np Ep N10 N15 ltac:(lia) ltac:(lia) ltac:(apply Qlt_alt; vm_compute; reflexivity))
    as (a10' & b10' & a15 & b15 & E10' & E15 & _ & B15 & L15).
  rewrite E5 in E5'. injection E5' as <- <-.
  rewrite E10 in E10'. injection E10' as <- <-.
  subst x0 x5 x10 x15 P. rewrite E0, E5, E10, E15.
  split.
  { rewrite <- E0. apply (SFmul_one (S754_finite false mp ep)). apply Np. }
  split; [repeat split; apply SFleb_refl_finite|].
  repeat split; now apply SFltb_of_Qval.
Qed.

(** X7. bulk_pricing_calculator: for a base price between 1e-300 and 1e300
    the discounted unit price does not rise with the quantity: more pounds
    never give a higher unit price, and the unit price never exceeds the
    base price. *)
Theorem unit_price_monotone (basePrice p1 p2 : number) :
  PrimFloat.leb 1e-300 basePrice = true -> PrimFloat.leb basePrice 1e300 = true ->
  PrimFloat.ltb p1 p2 = true ->
  PrimFloat.leb (discountedPrice basePrice p2) (discountedPrice basePrice p1) = true /\
  PrimFloat.leb (discountedPrice basePrice p1) basePrice = true.
Proof.
  intros H1 H2 L.
  destruct (between_normal basePrice 1e-300 1e300 6032057205060441 6724873095247260
              (-1049) 944 eq_refl eq_refl ltac:(lia) H1 H2) as (mp & ep & Hp & Np & Ep).
  destruct factor_values as (F0 & F5 & F10 & F15).
  assert (T : forall c, ge p1 c = true -> ge p2 c = true)
    by (intros c G; exact (ge_lt_trans c p1 p2 G L)).
  destruct (SFdiscounted_chain mp ep Np Ep) as (E0 & (R0 & R5 & R10 & R15) & L5 & L10 & L15).
  cbv zeta in E0, R0, R5, R10, R15, L5, L10, L15.
  apply SFltb_leb in L5, L10, L15.
  pose proof (SFleb_trans_const _ _ _ L10 L5) as L10_0.
  pose proof (SFleb_trans_const _ _ _ L15 L10) as L15_5.
  pose proof (SFleb_trans_const _ _ _ L15 L10_0) as L15_0.
  pose proof L5 as L5P. pose proof L10_0 as L10P. pose proof L15_0 as L15P.
  rewrite E0 in L5P, L10P, L15P.
  assert (W1 : forall x, ge x 100 = true -> ge x 50 = true)
    by (intros x; apply ge_weaken; reflexivity).
  assert (W2 : forall x, ge x 50 = true -> ge x 25 = true)
    by (intros x; apply ge_weaken; reflexivity).
  unfold discountedPrice.
  destruct (resolveTier_cases p1) as [(A1 & ->)|[(A1 & B1 & ->)|[(A1 & B1 & ->)|(A1 & ->)]]];
  destruct (resolveTier_cases p2) as [(A2 & ->)|[(A2 & B2 & ->)|[(A2 & B2 & ->)|(A2 & ->)]]];
    cbn [fst];
    try (pose proof (T _ A1) as TA); try (pose proof (T _ B1) as TB);
    try (pose proof (W1 _ TA) as TA'); try (pose proof (W2 _ TA') as TA'');
    try (pose proof (W2 _ TB) as TB'); try (pose proof (W1 _ A2) as A2');
    try congruence;
    rewrite !leb_spec, !mul_spec, Hp, ?F0, ?F5, ?F10, ?F15;
    (split; first [assumption | rewrite E0; apply SFleb_refl_finite]).
Qed.

Lemma unit_price_monotone_witness :
  PrimFloat.leb (discountedPrice 45 50) (discountedPrice 45 24) = true /\
  PrimFloat.leb (discountedPrice 45 24) 45 = true.
Proof. apply (unit_price_monotone 45 24 50); reflexivity. Defined.

End PricingTheorems.

(** ** The converter: further properties *)

Module ConverterTheorems.

Import Rounding Tolerance Order Binary64 Values Number.
Import ConverterFacts PricingFacts PricingSteps PricingTheorems.

(** X8. weight_conversion: the converter is odd in the quantity: a
    negative weight is not rejected, and converting [-q] gives exactly the
    negation of converting [q], for every number [q] and all units. *)
Theorem convert_opp (q : number) (u v : Inventory.unit) :
  Inventory.convert (- q) u v = - Inventory.convert q u v.
Proof.
  apply Prim2SF_inj.
  rewrite opp_spec, !Prim2SF_convert, opp_spec, SFmul_opp_l, SFdiv_opp_l.
  reflexivity.
Qed.

(** X9. weight_conversion: a weight of zero (of either sign) converts to
    "0.00" of the target unit for all units, with no bulk discount, every
    count of the breakdown zero and the remainder "0.00". *)
Theorem convert_zero_weight (i : Inventory.input) :
  PrimFloat.eqb (Inventory.fromWeight i) 0 = true ->
  exists r, Inventory.execute i = Returns r /\
    Inventory.original r = "0 " ++ Inventory.unit_name (Inventory.fromUnit i) /\
    Inventory.converted r = "0.00 " ++ Inventory.unit_name (Inventory.toUnit i) /\
    Inventory.bulkDiscount_text r = "None" /\
    PrimFloat.eqb (Inventory.eighths (Inventory.breakdown_of r)) 0 = true /\
    PrimFloat.eqb (Inventory.quarters (Inventory.breakdown_of r)) 0 = true /\
    PrimFloat.eqb (Inventory.halfOunces (Inventory.breakdown_of r)) 0 = true /\
    PrimFloat.eqb (Inventory.ounces (Inventory.breakdown_of r)) 0 = true /\
    Inventory.remaining (Inventory.breakdown_of r) = "0.00".
Proof.
  intros H. destruct (eqb_zero _ H) as (s & Hq).
  pose proof (Prim2SF_convert_zero (Inventory.fromWeight i) (Inventory.fromUnit i)
                (Inventory.toUnit i) s Hq) as Hr.
  eexists. split; [reflexivity|].
  cbn [Inventory.original Inventory.converted Inventory.bulkDiscount_text
       Inventory.breakdown_of Inventory.breakdown Inventory.eighths Inventory.quarters
       Inventory.halfOunces Inventory.ounces Inventory.remaining].
  set (result := Inventory.convert _ _ _) in *.
  assert (D : Inventory.bulkDiscount (Inventory.bulkPricing i) (Inventory.toUnit i) result = 0).
  { unfold Inventory.bulkDiscount, ge. rewrite !leb_spec, Hr.
    destruct (_ && _); [|reflexivity]. destruct s; reflexivity. }
  rewrite D.
  assert (F : forall c m e, Prim2SF c = S754_finite false m e ->
              PrimFloat.eqb (Math_floor (result / c)) 0 = true).
  { intros c m e Hc. rewrite FloatAxioms.eqb_spec, Prim2SF_SFfloor, div_spec, Hr, Hc.
    destruct s; reflexivity. }
  unfold toString, toFixed. rewrite Hq, Hr.
  split; [reflexivity|]. split; [reflexivity|]. split; [reflexivity|].
  split; [apply (F 3.5 7881299347898368%positive (-51)%Z); reflexivity|].
  split; [apply (F 7 7881299347898368%positive (-50)%Z); reflexivity|].
  split; [apply (F 14 7881299347898368%positive (-49)%Z); reflexivity|].
  split; [apply (F 28 7881299347898368%positive (-48)%Z); reflexivity|].
  unfold rem. rewrite Hr. destruct s; reflexivity.
Qed.

Lemma convert_zero_weight_witness :
  exists r,
    Inventory.execute
      {| Inventory.fromWeight := -0; Inventory.fromUnit := Inventory.oz;
         Inventory.toUnit := Inventory.lb; Inventory.bulkPricing := true |} = Returns r /\
    Inventory.original r = "0 " ++ "oz" /\
    Inventory.converted r = "0.00 " ++ "lb" /\
    Inventory.bulkDiscount_text r = "None" /\
    PrimFloat.eqb (Inventory.eighths (Inventory.breakdown_of r)) 0 = true /\
    PrimFloat.eqb (Inventory.quarters (Inventory.breakdown_of r)) 0 = true /\
    PrimFloat.eqb (Inventory.halfOunces (Inventory.breakdown_of r)) 0 = true /\
    PrimFloat.eqb (Inventory.ounces (Inventory.breakdown_of r)) 0 = true /\
    Inventory.remaining (Inventory.breakdown_of r) = "0.00".
Proof.
  apply (convert_zero_weight
           {| Inventory.fromWeight := -0; Inventory.fromUnit := Inventory.oz;
              Inventory.toUnit := Inventory.lb; Inventory.bulkPricing := true |}).
  reflexivity.
Defined.

(** X10. The two tools apply the same thresholds: converting a weight to
    pounds with the bulk flag set and pricing the converted pounds give the
    same discount rate, which the converter prints as "None" where the
    calculator prints "0%". *)
Theorem tools_agree_on_discount (q basePrice : number) (u : Inventory.unit) :
  exists r1 r2,
    Inventory.execute
      {| Inventory.fromWeight := q; Inventory.fromUnit := u;
         Inventory.toUnit := Inventory.lb; Inventory.bulkPricing := true |} = Returns r1 /\
    Pricing.execute
      {| Pricing.basePrice := basePrice; Pricing.quantity := Inventory.convert q u Inventory.lb;
         Pricing.unit_of := Pricing.lb; Pricing.tier_of := None |} = Returns r2 /\
    ((Inventory.bulkDiscount_text r1 = "None" /\ Pricing.discountRate r2 = "0%") \/
     (Inventory.bulkDiscount_text r1 = Pricing.discountRate r2 /\
      Pricing.discountRate r2 <> "0%")).
Proof.
  do 2 eexists. split; [reflexivity|]. split; [apply execute_steps|].
  cbn [Inventory.bulkDiscount_text Pricing.discountRate Pricing.quantity Pricing.unit_of
       Inventory.toUnit Inventory.bulkPricing Inventory.fromWeight Inventory.fromUnit].
  unfold Pricing.pounds. cbn [Pricing.conversionFactors]. rewrite mul_one_r.
  set (x := Inventory.convert q u Inventory.lb).
  unfold Inventory.bulkDiscount. cbn [andb Inventory.unit_eqb].
  destruct toString_rates as (T15 & T10 & T5 & T0).
  destruct (resolveTier_cases x) as [(A & ->)|[(A & B & ->)|[(A & B & ->)|(A & ->)]]];
    cbn [fst].
  - rewrite A, T15. change (gt 15 0) with true. cbn [append].
    right. split; [reflexivity|discriminate].
  - rewrite A, B, T10. change (gt 10 0) with true. cbn [append].
    right. split; [reflexivity|discriminate].
  - rewrite B. destruct (ge x 100) eqn:C.
    + apply (ge_weaken 50 100) in C; [congruence|reflexivity].
    + rewrite A, T5. change (gt 5 0) with true. cbn [append].
      right. split; [reflexivity|discriminate].
  - destruct (ge x 100) eqn:C.
    { apply (ge_weaken 25 100) in C; [congruence|reflexivity]. }
    destruct (ge x 50) eqn:C'.
    { apply (ge_weaken 25 50) in C'; [congruence|reflexivity]. }
    rewrite A, T0. change (gt 0 0) with false. cbn [append].
    left. split; reflexivity.
Qed.

End ConverterTheorems.

(** ** The comprehensive pricing analysis tool: properties *)

Module AnalysisTheorems.

Import Analysis.

Lemma own_In (o : list (string * tier_entry)) (k : string) (e : tier_entry) :
  own o k = Some e -> In (k, e) o.
Proof.
  induction o as [|[k' e'] o IH]; cbn [own]; [discriminate|].
  destruct (String.eqb_spec k' k) as [->|N].
  - intros [= ->]. now left.
  - intros H. right. now apply IH.
Qed.

Lemma own_None (o : list (string * tier_entry)) (k : string) :
  ~ In k (map fst o) -> own o k = None.
Proof.
  induction o as [|[k' e'] o IH]; cbn [own map fst In]; [reflexivity|].
  intros H. destruct (String.eqb_spec k' k) as [->|N]; [tauto|]. apply IH. tauto.
Qed.

Lemma existsb_eqb_false (k : string) (l : list string) :
  ~ In k l -> existsb (String.eqb k) l = false.
Proof.
  induction l as [|x l IH]; cbn [existsb In]; [reflexivity|].
  intros H. destruct (String.eqb_spec k x) as [->|N]; [tauto|]. apply IH. tauto.
Qed.

(** X11. comprehensive_pricing_analysis: when [tier] names one of the three
    mock tiers, exactly, the analysis holds that tier's entry and nothing
    else. *)
Theorem analysis_of_known_tier (i : input) (t : string) (e : tier_entry) :
  tier i = Some t -> In (t, e) tierAnalysis ->
  exists r, execute i = Returns r /\ analysis r = [(t, Entry e)].
Proof.
  intros Ht H. unfold execute. rewrite Ht.
  cbn [In tierAnalysis] in H.
  destruct H as [[= <- <-]|[[= <- <-]|[[= <- <-]|[]]]]; eexists; split; reflexivity.
Qed.

Lemma analysis_of_known_tier_witness :
  exists r,
    execute {| tier := Some "AA INDOOR"; includeMarketComparison := true;
               includeRecommendations := true |} = Returns r /\
    analysis r =
      [("AA INDOOR",
        Entry {| averagePrice := 33.5; productCount := 2; priceRange := "$32-35";
                 marketPosition := "Competitive"; recommendedAdjustment := "+3%" |})].
Proof.
  apply (analysis_of_known_tier
           {| tier := Some "AA INDOOR"; includeMarketComparison := true;
              includeRecommendations := true |} "AA INDOOR").
  - reflexivity.
  - right; left; reflexivity.
Defined.

(** X12. comprehensive_pricing_analysis: when [tier] is absent, empty, or a
    string that is neither a mock tier nor a name on [Object.prototype]
    (the match is case-sensitive), nothing is filtered: the analysis holds
    all three tiers, in the order of the object literal, and no error is
    raised for the unknown tier. *)
Theorem analysis_of_other_tier (i : input) :
  match tier i with
  | None => True
  | Some t => t = "" \/ (~ In t (map fst tierAnalysis) /\ ~ In t Object_prototype)
  end ->
  exists r, execute i = Returns r /\
    map fst (analysis r) = ["TOP SHELF"; "AA INDOOR"; "CLASSIC RESERVE"] /\
    analysis r = map (fun kv => (fst kv, Entry (snd kv))) tierAnalysis.
Proof.
  intros H. unfold execute. destruct (tier i) as [t|].
  - destruct H as [->|[H1 H2]].
    + eexists. split; [reflexivity|]. split; reflexivity.
    + unfold get. rewrite (own_None _ _ H1), (existsb_eqb_false _ _ H2).
      destruct (truthy t); eexists; (split; [reflexivity|]); split; reflexivity.
  - eexists. split; [reflexivity|]. split; reflexivity.
Qed.

Lemma analysis_of_other_tier_witness :
  exists r,
    execute {| tier := Some "top shelf"; includeMarketComparison := true;
               includeRecommendations := true |} = Returns r /\
    map fst (analysis r) = ["TOP SHELF"; "AA INDOOR"; "CLASSIC RESERVE"] /\
    analysis r = map (fun kv => (fst kv, Entry (snd kv))) tierAnalysis.
Proof.
  apply (analysis_of_other_tier
           {| tier := Some "top shelf"; includeMarketComparison := true;
              includeRecommendations := true |}).
  right. split.
  - cbn. intros [H|[H|[H|[]]]]; discriminate H.
  - cbn. intuition discriminate.
Defined.

(** X13. comprehensive_pricing_analysis: the lookup [tierAnalysis[tier]]
    also finds what the object inherits: for a [tier] that is a name on
    [Object.prototype], such as "constructor" or "toString", the analysis is
    a single property of that name holding the inherited member, not a tier
    entry. *)
Theorem analysis_of_inherited_name (i : input) (t : string) :
  tier i = Some t -> In t Object_prototype ->
  exists r, execute i = Returns r /\ analysis r = [(t, Inherited t)].
Proof.
  intros Ht H. unfold execute. rewrite Ht.
  cbn [In Object_prototype] in H.
  repeat (destruct H as [<-|H]; [eexists; split; reflexivity|]).
  destruct H.
Qed.

Lemma analysis_of_inherited_name_witness :
  exists r,
    execute {| tier := Some "constructor"; includeMarketComparison := true;
               includeRecommendations := true |} = Returns r /\
    analysis r = [("constructor", Inherited "constructor")].
Proof.
  apply (analysis_of_inherited_name
           {| tier := Some "constructor"; includeMarketComparison := true;
              includeRecommendations := true |} "constructor").
  - reflexivity.
  - left; reflexivity.
Defined.

(** X14. comprehensive_pricing_analysis: the two flags are never read:
    two calls with the same [tier] return the same result, whatever
    [includeMarketComparison] and [includeRecommendations] are; the
    recommendations and market insights are returned, three lines each,
    also when the flags are false. *)
Theorem analysis_ignores_flags (i j : input) :
  tier i = tier j ->
  execute i = execute j /\
  exists r, execute j = Returns r /\
    List.length (opportunities r) = 3%nat /\ List.length (marketInsights r) = 3%nat /\
    List.length (recommendations r) = 3%nat.
Proof.
  intros H. split.
  - unfold execute. rewrite H. reflexivity.
  - eexists. split; [reflexivity|]. repeat split.
Qed.

Lemma analysis_ignores_flags_witness :
  execute {| tier := None; includeMarketComparison := true;
             includeRecommendations := true |} =
  execute {| tier := None; includeMarketComparison := false;
             includeRecommendations := false |} /\
  exists r,
    execute {| tier := None; includeMarketComparison := false;
               includeRecommendations := false |} = Returns r /\
    List.length (opportunities r) = 3%nat /\ List.length (marketInsights r) = 3%nat /\
    List.length (recommendations r) = 3%nat.
Proof.
  apply (analysis_ignores_flags
           {| tier := None; includeMarketComparison := true;
              includeRecommendations := true |}
           {| tier := None; includeMarketComparison := false;
              includeRecommendations := false |}).
  reflexivity.
Defined.

End AnalysisTheorems.
